(** * Eclipse project-file generator: [scripts/setup_eclipse.py]

    A shallow embedding of the script that writes [.classpath], [.project],
    [.factorypath] and two [.settings] preference files for a Bazel
    workspace, together with proofs of the properties its specification
    states.

    The script is Python 2 (its shebang is [/usr/bin/python] and it compares
    what a pipe returns with the empty [str] as sentinel), so a [str] is a
    byte string: it is modelled by [string], whose characters are the 256
    values of [ascii].

    Layout:
    - exceptions and results, and Python's string primitives used by the
      script ([str.format], [%], [str.join], [str.strip], [readline],
      [os.path.join]);
    - the pure functions of the script, in the order of the source;
    - the environment, the file system, the monad of the effectful part and
      the system calls, then the effectful functions of the script;
    - observation functions for the generated text (substring search, a
      small XML lexer), closed forms and the notions the proofs use;
    - lemmas, by subject, and the theorems of the specification's claims,
      each under a comment that names its claim;
    - further lemmas and theorems on what the code does beyond the claims:
      the outcomes of the query and of the builds, the documents of a run,
      what a run changes and what it raises. *)

From Stdlib Require Import Ascii String List Bool Arith ZArith Lia.
From stdpp Require Import base gmap strings list.

#[local] Arguments String.append !s1 s2 : simpl nomatch.

(** ** Characters that a Rocq string literal cannot hold directly *)

(** The line feed, written backslash-n in the source. *)
Definition nl : string := String "010"%char EmptyString.

(** The double quote, written backslash-quote in the source. *)
Definition dq : string := String "034"%char EmptyString.

(** ** Exceptions and results *)

Inductive exception : Type :=
| IndexError
| KeyError
| ValueError
| TypeError
| OSError
| IOError
| CalledProcessError.

Inductive result (A : Type) : Type :=
| Ok (a : A)
| Raise (e : exception).

Arguments Ok {A} a.
Arguments Raise {A} e.

Definition rbind {A B : Type} (m : result A) (k : A -> result B) : result B :=
  match m with
  | Ok a => k a
  | Raise e => Raise e
  end.

Definition rmap {A B : Type} (f : A -> B) (m : result A) : result B :=
  rbind m (fun a => Ok (f a)).

Notation "x <~ m ;; k" := (rbind m (fun x => k))
  (at level 100, m at next level, k at level 200, right associativity,
   only parsing).

(** A list comprehension whose body may raise: the elements are evaluated
    from left to right and the first exception aborts the comprehension. *)
Fixpoint comprehension {A B : Type} (f : A -> result B) (l : list A)
  : result (list B) :=
  match l with
  | [] => Ok []
  | a :: l' =>
      b <~ f a ;;
      bs <~ comprehension f l' ;;
      Ok (b :: bs)
  end.

(** [l[i]] on a list. *)
Definition index {A : Type} (l : list A) (i : nat) : result A :=
  match nth_error l i with
  | Some a => Ok a
  | None => Raise IndexError
  end.

(** ** Python's string primitives *)

Module Py.

(** [string.whitespace] of Python 2: tab, line feed, vertical tab, form
    feed, carriage return and space. *)
Definition isspace (c : ascii) : bool :=
  let n := nat_of_ascii c in
  ((9 <=? n) && (n <=? 13)) || (n =? 32).

Fixpoint lstrip (s : string) : string :=
  match s with
  | EmptyString => EmptyString
  | String c s' => if isspace c then lstrip s' else s
  end.

Fixpoint rstrip (s : string) : string :=
  match s with
  | EmptyString => EmptyString
  | String c s' =>
      match rstrip s' with
      | EmptyString => if isspace c then EmptyString else String c EmptyString
      | r => String c r
      end
  end.

(** [s.strip()] *)
Definition strip (s : string) : string := rstrip (lstrip s).

(** [sep.join(l)] *)
Fixpoint join (sep : string) (l : list string) : string :=
  match l with
  | [] => EmptyString
  | x :: l' =>
      match l' with
      | [] => x
      | _ :: _ => x +:+ sep +:+ join sep l'
      end
  end.

(** Keyword arguments of [str.format]; every value is already a [str], so
    formatting a value with the empty format specification is the value. *)
Definition kwargs : Type := list (string * string).

Fixpoint kw_lookup (name : string) (kw : kwargs) : option string :=
  match kw with
  | [] => None
  | (k, v) :: kw' => if String.eqb k name then Some v else kw_lookup name kw'
  end.

Fixpoint all_digits (s : string) : bool :=
  match s with
  | EmptyString => true
  | String c s' =>
      let n := nat_of_ascii c in
      (48 <=? n) && (n <=? 57) && all_digits s'
  end.

(** Characters that start an attribute access, an index, a conversion, a
    format specification or a nested field inside a replacement field.
    None of the script's templates uses them; a template that did is
    rejected rather than given a made-up meaning. *)
Definition field_special (c : ascii) : bool :=
  Ascii.eqb c "." || Ascii.eqb c "[" || Ascii.eqb c "!" || Ascii.eqb c ":"
  || Ascii.eqb c "{".

(** [template.format] applied to keyword arguments.  [field] is [None] in
    literal text and [Some name] inside a replacement field whose name read
    so far is [name].  [{{] and [}}] are the escapes of the braces; a field
    without a name or with a number for a name asks for a positional
    argument, and there is none; the text that replaces a field is not
    scanned again. *)
Fixpoint format_go (field : option string) (kw : kwargs) (t : string)
  : result string :=
  match t with
  | EmptyString =>
      match field with
      | None => Ok EmptyString
      | Some _ => Raise ValueError
      end
  | String c t' =>
      match field with
      | None =>
          if Ascii.eqb c "{" then
            match t' with
            | String c' t'' =>
                if Ascii.eqb c' "{"
                then rmap (String "{") (format_go None kw t'')
                else format_go (Some EmptyString) kw t'
            | EmptyString => Raise ValueError
            end
          else if Ascii.eqb c "}" then
            match t' with
            | String c' t'' =>
                if Ascii.eqb c' "}"
                then rmap (String "}") (format_go None kw t'')
                else Raise ValueError
            | EmptyString => Raise ValueError
            end
          else rmap (String c) (format_go None kw t')
      | Some name =>
          if Ascii.eqb c "}" then
            if all_digits name then Raise IndexError
            else
              match kw_lookup name kw with
              | Some v => rmap (String.append v) (format_go None kw t')
              | None => Raise KeyError
              end
          else if field_special c then Raise ValueError
          else format_go (Some (name +:+ String c EmptyString)) kw t'
      end
  end.

Definition format (t : string) (kw : kwargs) : result string :=
  format_go None kw t.

(** [template % args] for a template whose only conversions are [%s] and
    [%%] and arguments that are strings. *)
Fixpoint percent (t : string) (args : list string) : result string :=
  match t with
  | EmptyString =>
      match args with
      | [] => Ok EmptyString
      | _ :: _ => Raise TypeError
      end
  | String c t' =>
      if Ascii.eqb c "%" then
        match t' with
        | String c' t'' =>
            if Ascii.eqb c' "s" then
              match args with
              | a :: args' => rmap (String.append a) (percent t'' args')
              | [] => Raise TypeError
              end
            else if Ascii.eqb c' "%" then rmap (String "%") (percent t'' args)
            else Raise ValueError
        | EmptyString => Raise ValueError
        end
      else rmap (String c) (percent t' args)
  end.

(** [f.readline()] on the bytes still to be read: the line with its line
    feed (the whole rest when it has none) and what remains; the empty
    string at the end of the stream. *)
Fixpoint readline (s : string) : string * string :=
  match s with
  | EmptyString => (EmptyString, EmptyString)
  | String c s' =>
      if Ascii.eqb c "010" then (String c EmptyString, s')
      else let '(l, r) := readline s' in (String c l, r)
  end.

(** [iter] over [f.readline] with the empty string as sentinel: the lines
    read until [readline] returns the sentinel.  Every call that does not
    return the sentinel consumes a byte, so [S (String.length s)] calls are
    enough ([iter_readline_fuel]). *)
Fixpoint iter_readline_go (fuel : nat) (s : string) : list string :=
  match fuel with
  | O => []
  | S n =>
      let '(l, r) := readline s in
      if String.eqb l EmptyString then [] else l :: iter_readline_go n r
  end.

Definition iter_readline (s : string) : list string :=
  iter_readline_go (S (String.length s)) s.

(** [s.startswith] and [s.endswith] for the separator [/]. *)
Definition startswith_slash (s : string) : bool :=
  match s with
  | String c _ => Ascii.eqb c "/"
  | EmptyString => false
  end.

Fixpoint endswith_slash (s : string) : bool :=
  match s with
  | EmptyString => false
  | String c s' =>
      match s' with
      | EmptyString => Ascii.eqb c "/"
      | String _ _ => endswith_slash s'
      end
  end.

(** One step of the loop of [posixpath.join]. *)
Definition path_join2 (path b : string) : string :=
  if startswith_slash b then b
  else if String.eqb path EmptyString || endswith_slash path then path +:+ b
  else path +:+ "/" +:+ b.

(** [os.path.join(a, *p)] *)
Definition path_join (a : string) (p : list string) : string :=
  fold_left path_join2 p a.

End Py.

(** ** The pure functions of the script *)

(** The entries are dictionaries with two keys each, which the script
    builds itself and passes to the renderers with [**entry]: the keys are
    bound to the parameters of the same names.  They are records here. *)
Module ClasspathEntry.
Record t : Type := Build { kind : string; path : string }.
End ClasspathEntry.

Module FactorypathEntry.
Record t : Type := Build { kind : string; entry_id : string }.
End FactorypathEntry.

Definition classpath_entry_xml (kind path : string) : result string :=
  Py.format
    ("<classpathentry kind=" +:+ dq +:+ "{kind}" +:+ dq
     +:+ " path=" +:+ dq +:+ "{path}" +:+ dq +:+ "/>")
    [("kind", kind); ("path", path)].

Definition classpath_xml (entries : list ClasspathEntry.t) : result string :=
  lines <~ comprehension
             (fun entry =>
                x <~ classpath_entry_xml (ClasspathEntry.kind entry)
                                         (ClasspathEntry.path entry) ;;
                Ok ("  " +:+ x))
             entries ;;
  let entries_xml := Py.join nl lines in
  Py.format
    ("<?xml version=" +:+ dq +:+ "1.0" +:+ dq
     +:+ " encoding=" +:+ dq +:+ "UTF-8" +:+ dq +:+ "?>" +:+ nl
     +:+ "<classpath>" +:+ nl
     +:+ "{entries}"
     +:+ nl +:+ "</classpath>")
    [("entries", entries_xml)].

Definition build_project (project_name : string) : result string :=
  let template :=
    "<?xml version=" +:+ dq +:+ "1.0" +:+ dq
    +:+ " encoding=" +:+ dq +:+ "UTF-8" +:+ dq +:+ "?>
<projectDescription>
    <name>{project_name}</name>
    <comment>
    </comment>
    <projects>
    </projects>
    <buildSpec>
        <buildCommand>
            <name>org.python.pydev.PyDevBuilder</name>
            <arguments>
            </arguments>
        </buildCommand>
        <buildCommand>
            <name>org.eclipse.jdt.core.javabuilder</name>
            <arguments>
            </arguments>
        </buildCommand>
    </buildSpec>
    <natures>
        <nature>org.eclipse.jdt.core.javanature</nature>
        <nature>org.python.pydev.pythonNature</nature>
    </natures>
</projectDescription>" in
  Py.format template [("project_name", project_name)].

Definition factorypath_entry_xml (kind entry_id : string) : result string :=
  Py.format
    ("<factorypathentry kind=" +:+ dq +:+ "{kind}" +:+ dq
     +:+ " id=" +:+ dq +:+ "{entry_id}" +:+ dq +:+ " "
     +:+ "enabled=" +:+ dq +:+ "true" +:+ dq
     +:+ " runInBatchMode=" +:+ dq +:+ "false" +:+ dq +:+ "/>")
    [("kind", kind); ("entry_id", entry_id)].

Definition factorypath_xml (entries : list FactorypathEntry.t)
  : result string :=
  lines <~ comprehension
             (fun entry =>
                x <~ factorypath_entry_xml (FactorypathEntry.kind entry)
                                           (FactorypathEntry.entry_id entry) ;;
                Ok ("  " +:+ x))
             entries ;;
  let entries_xml := Py.join nl lines in
  Py.format
    ("<factorypath>" +:+ nl
     +:+ "{entries}"
     +:+ nl +:+ "</factorypath>")
    [("entries", entries_xml)].

(** ** The environment and the file system *)

(** What the script reads and never changes: its command line, the current
    directory, and the child processes it can start.  [spawn args] is what
    running [args] to completion yields, its standard output and its exit
    status, or [None] when no process can be started (no [bazel] on the
    search path).  The answer depends on the arguments only: the build tool
    is an oracle, and the same query gives the same answer throughout. *)
Record Env : Type := {
  argv : list string;
  cwd : string;
  spawn : list string -> option (string * Z)
}.

(** The part of the file system the script can observe: the regular files
    with their contents and the directories, both keyed by the path as the
    script spells it, made absolute with the current directory.  Paths are
    not normalised and links are not followed; a write fails only for want
    of a directory to write in or because its target is a directory;
    running [bazel build] leaves the modelled files alone. *)
Record FS : Type := {
  files : gmap string string;
  dirs : gset string
}.

(** A computation reads the environment, changes the file system and
    returns a value or raises an exception.  What was written before an
    exception stays written: the file system comes back in both cases. *)
Definition M (A : Type) : Type := Env -> FS -> result A * FS.

Definition ret {A : Type} (a : A) : M A := fun _ fs => (Ok a, fs).

Definition bind {A B : Type} (m : M A) (k : A -> M B) : M B :=
  fun env fs =>
    match m env fs with
    | (Ok a, fs') => k a env fs'
    | (Raise e, fs') => (Raise e, fs')
    end.

Definition lift {A : Type} (r : result A) : M A := fun _ fs => (r, fs).

Notation "x <- m ;; k" := (bind m (fun x => k))
  (at level 100, m at next level, k at level 200, right associativity,
   only parsing).
Notation "m ;; k" := (bind m (fun _ => k))
  (at level 100, k at level 200, right associativity, only parsing).

Module Os.

(** The path a system call sees for [p]. *)
Definition resolve (env : Env) (p : string) : string :=
  Py.path_join2 (cwd env) p.

(** [p] cut after its last separator: the part up to and including it,
    and the part after it. *)
Fixpoint rpartition (p : string) : string * string :=
  match p with
  | EmptyString => (EmptyString, EmptyString)
  | String c p' =>
      let '(h, t) := rpartition p' in
      match h with
      | EmptyString =>
          if Ascii.eqb c "/" then (String c EmptyString, t)
          else (EmptyString, String c t)
      | String _ _ => (String c h, t)
      end
  end.

Fixpoint rstrip_slash (s : string) : string :=
  match s with
  | EmptyString => EmptyString
  | String c s' =>
      match rstrip_slash s' with
      | EmptyString =>
          if Ascii.eqb c "/" then EmptyString else String c EmptyString
      | r => String c r
      end
  end.

(** [posixpath.split]: trailing separators are removed from the head
    unless it consists of separators only. *)
Definition split (p : string) : string * string :=
  let '(head, tail) := rpartition p in
  match rstrip_slash head with
  | EmptyString => (head, tail)
  | h => (h, tail)
  end.

Definition dirname (p : string) : string := fst (split p).

Definition is_dir (fs : FS) (p : string) : bool := bool_decide (p ∈ dirs fs).

Definition is_file (fs : FS) (p : string) : bool :=
  bool_decide (is_Some (files fs !! p)).

(** [os.path.exists]; the empty path names nothing. *)
Definition path_exists (p : string) : M bool :=
  fun env fs =>
    if String.eqb p EmptyString then (Ok false, fs)
    else
      let a := resolve env p in
      (Ok (is_dir fs a || is_file fs a), fs).

(** [os.mkdir] *)
Definition mkdir (p : string) : M unit :=
  fun env fs =>
    if String.eqb p EmptyString then (Raise OSError, fs)
    else
      let a := resolve env p in
      if is_dir fs a || is_file fs a then (Raise OSError, fs)
      else if is_dir fs (dirname a)
           then (Ok tt, {| files := files fs; dirs := {[a]} ∪ dirs fs |})
           else (Raise OSError, fs).

(** [os.makedirs]: the missing ancestors are created first.  The source
    forgives an ancestor that appeared between its test and its creation;
    nothing else runs here, so an error of the recursive call is always
    another one and is raised again.  The head is shorter than the name,
    so [String.length name] levels of recursion are enough. *)
Fixpoint makedirs_go (fuel : nat) (name : string) : M unit :=
  match fuel with
  | O => mkdir name
  | S n =>
      let '(head, tail) := split name in
      let '(head, tail) :=
        if String.eqb tail EmptyString then split head else (head, tail) in
      if negb (String.eqb head EmptyString) && negb (String.eqb tail EmptyString)
      then
        ex <- path_exists head ;;
        if negb ex then
          makedirs_go n head ;;
          if String.eqb tail "." then ret tt else mkdir name
        else mkdir name
      else mkdir name
  end.

Definition makedirs (name : string) : M unit :=
  makedirs_go (String.length name) name.

(** [with open(path, "w") as f: f.write(content)]: the file is created or
    truncated and then holds exactly [content]. *)
Definition write_file (path content : string) : M unit :=
  fun env fs =>
    if String.eqb path EmptyString then (Raise IOError, fs)
    else
      let a := resolve env path in
      if is_dir fs a then (Raise IOError, fs)
      else if is_dir fs (dirname a)
           then (Ok tt, {| files := <[a := content]> (files fs);
                            dirs := dirs fs |})
           else (Raise IOError, fs).

(** [subprocess.Popen(args, stdout=PIPE).stdout], read to its end: the
    exit status is not looked at. *)
Definition popen_stdout (args : list string) : M string :=
  fun env fs =>
    match spawn env args with
    | Some (out, _) => (Ok out, fs)
    | None => (Raise OSError, fs)
    end.

(** [subprocess.check_call(args)] *)
Definition check_call (args : list string) : M unit :=
  fun env fs =>
    match spawn env args with
    | Some (_, status) =>
        if Z.eqb status 0 then (Ok tt, fs) else (Raise CalledProcessError, fs)
    | None => (Raise OSError, fs)
    end.

Definition sys_argv : M (list string) := fun env fs => (Ok (argv env), fs).

End Os.

(** ** The effectful functions of the script *)

Definition bazel_info (key : string) : M string :=
  stdout <- Os.popen_stdout ["bazel"; "info"; key] ;;
  let result := map Py.strip (Py.iter_readline stdout) in
  lift (index result 0).

Definition build_classpath : M string :=
  bazel_genfiles <- bazel_info "bazel-genfiles" ;;
  lib_path <- lift (Py.percent
                      ("%s/java/google/"
                       +:+ "registry/eclipse/eclipse_deps.jar")
                      [bazel_genfiles]) ;;
  let classpath_entries :=
    [ ClasspathEntry.Build "con" "org.eclipse.jdt.launching.JRE_CONTAINER";
      ClasspathEntry.Build "src" "java";
      ClasspathEntry.Build "src" "javatests";
      ClasspathEntry.Build "src" "bazel-genfiles/java";
      ClasspathEntry.Build "lib" lib_path;
      ClasspathEntry.Build "output" "bin" ] in
  lift (classpath_xml classpath_entries).

Definition build_factorypath : M string :=
  bazel_bin <- bazel_info "bazel-bin" ;;
  let annotations_jar :=
    Py.path_join bazel_bin
      ["java/google/registry/eclipse"
       +:+ "/annotation_processors_ide_deploy.jar"] in
  let factorypath_entries :=
    [ FactorypathEntry.Build "PLUGIN" "org.eclipse.jst.ws.annotations.core";
      FactorypathEntry.Build "EXTJAR" annotations_jar ] in
  lift (factorypath_xml factorypath_entries).

Definition build_dependencies : M unit :=
  Os.check_call ["bazel"; "build";
                 "//java/google/registry/...";
                 "//javatests/google/registry/..."] ;;
  Os.check_call ["bazel"; "build";
                 "//java/google/registry/eclipse:eclipse_deps"] ;;
  Os.check_call ["bazel"; "build";
                 "//java/google/registry/eclipse"
                 +:+ ":annotation_processors_ide_deploy.jar"].

Definition main : M unit :=
  build_dependencies ;;
  workspace_directory <- bazel_info "workspace" ;;
  classpath <- build_classpath ;;
  Os.write_file (Py.path_join workspace_directory [".classpath"]) classpath ;;
  sys_argv <- Os.sys_argv ;;
  project_name <- (if 1 <? length sys_argv
                   then lift (index sys_argv 1)
                   else ret "domain-registry") ;;
  project <- lift (build_project project_name) ;;
  Os.write_file (Py.path_join workspace_directory [".project"]) project ;;
  factorypath <- build_factorypath ;;
  Os.write_file (Py.path_join workspace_directory [".factorypath"])
                factorypath ;;
  settings <- Os.path_exists ".settings" ;;
  (if negb settings then Os.makedirs ".settings" else ret tt) ;;
  Os.write_file
    (Py.path_join workspace_directory
       [".settings"; "org.eclipse.jdt.core.prefs"])
    (Py.join nl
       [ "eclipse.preferences.version=1";
         "org.eclipse.jdt.core.compiler.processAnnotations=enabled" ]) ;;
  Os.write_file
    (Py.path_join workspace_directory
       [".settings"; "org.eclipse.jdt.apt.core.prefs"])
    (Py.join nl
       [ "eclipse.preferences.version=1";
         "org.eclipse.jdt.apt.aptEnabled=true";
         "org.eclipse.jdt.apt.genSrcDir=autogenerated";
         "org.eclipse.jdt.apt.reconcileEnabled=true" ]).


(** ** Observing the generated text *)

Module Text.

(** [p in s] *)
Fixpoint contains (p s : string) : bool :=
  String.prefix p s
  || match s with
     | EmptyString => false
     | String _ s' => contains p s'
     end.

Fixpoint has_char (c : ascii) (s : string) : bool :=
  match s with
  | EmptyString => false
  | String c' s' => Ascii.eqb c' c || has_char c s'
  end.

(** A string that holds no line feed. *)
Definition single_line (s : string) : bool := negb (has_char "010" s).

(** What stands in [s] before the first occurrence of [closing]. *)
Fixpoint upto (closing s : string) : option string :=
  if String.prefix closing s then Some EmptyString
  else
    match s with
    | EmptyString => None
    | String c s' => option_map (String c) (upto closing s')
    end.

(** What stands in [s] after the first occurrence of [opening]. *)
Fixpoint after (opening s : string) : option string :=
  if String.prefix opening s
  then Some (String.substring (String.length opening)
                              (String.length s - String.length opening) s)
  else
    match s with
    | EmptyString => None
    | String _ s' => after opening s'
    end.

(** The text between the first occurrence of [opening] and the next
    occurrence of [closing]. *)
Definition between (opening closing s : string) : option string :=
  match after opening s with
  | Some rest => upto closing rest
  | None => None
  end.

End Text.

(** A lexer for the fragment of XML the script writes: an XML declaration,
    start, end and empty-element tags with double-quoted attribute values,
    and character data.  Entity references, comments, CDATA sections,
    single-quoted values and blanks around [=] are outside the fragment and
    make the lexer fail. *)
Module Xml.

Inductive token : Type :=
| Decl (body : string)
| Open (name : string) (attrs : list (string * string))
| Close (name : string)
| Empty (name : string) (attrs : list (string * string))
| Chars (text : string).

Definition name_char (c : ascii) : bool :=
  let n := nat_of_ascii c in
  ((97 <=? n) && (n <=? 122)) || ((65 <=? n) && (n <=? 90))
  || ((48 <=? n) && (n <=? 57))
  || Ascii.eqb c "_" || Ascii.eqb c "-" || Ascii.eqb c "." || Ascii.eqb c ":".

Definition blank (c : ascii) : bool :=
  Ascii.eqb c " " || Ascii.eqb c "009" || Ascii.eqb c "010"
  || Ascii.eqb c "013".

(** The characters an attribute value may hold as they are. *)
Definition value_char (c : ascii) : bool :=
  negb (Ascii.eqb c "034" || Ascii.eqb c "<" || Ascii.eqb c "&").

Fixpoint safe (v : string) : bool :=
  match v with
  | EmptyString => true
  | String c v' => value_char c && safe v'
  end.

Inductive state : Type :=
| SChars (acc : string)
| SLt
| SDecl (acc : string)
| SDeclQ (acc : string)
| SName (closing : bool) (acc : string)
| SCloseEnd (name : string)
| SAttrs (name : string) (attrs : list (string * string)) (sep : bool)
| SAttrName (name : string) (attrs : list (string * string)) (acc : string)
| SAttrQuote (name : string) (attrs : list (string * string)) (aname : string)
| SAttrValue (name : string) (attrs : list (string * string))
             (aname acc : string)
| SSlash (name : string) (attrs : list (string * string)).

Definition snoc (s : string) (c : ascii) : string :=
  s +:+ String c EmptyString.

Definition push_chars (acc : string) (out : list token) : list token :=
  match acc with
  | EmptyString => out
  | String _ _ => Chars acc :: out
  end.

(** [out] holds the tokens read so far, the last one first. *)
Fixpoint lex_go (st : state) (out : list token) (s : string)
  : option (list token) :=
  match s with
  | EmptyString =>
      match st with
      | SChars acc => Some (rev (push_chars acc out))
      | _ => None
      end
  | String c s' =>
      match st with
      | SChars acc =>
          if Ascii.eqb c "<" then lex_go SLt (push_chars acc out) s'
          else if Ascii.eqb c "&" then None
          else lex_go (SChars (snoc acc c)) out s'
      | SLt =>
          if Ascii.eqb c "?" then lex_go (SDecl EmptyString) out s'
          else if Ascii.eqb c "/" then lex_go (SName true EmptyString) out s'
          else if name_char c
               then lex_go (SName false (String c EmptyString)) out s'
               else None
      | SDecl acc =>
          if Ascii.eqb c "?" then lex_go (SDeclQ acc) out s'
          else lex_go (SDecl (snoc acc c)) out s'
      | SDeclQ acc =>
          if Ascii.eqb c ">" then lex_go (SChars EmptyString) (Decl acc :: out) s'
          else if Ascii.eqb c "?" then lex_go (SDeclQ (snoc acc "?")) out s'
          else lex_go (SDecl (snoc (snoc acc "?") c)) out s'
      | SName closing acc =>
          if name_char c then lex_go (SName closing (snoc acc c)) out s'
          else if closing then
            match acc with
            | EmptyString => None
            | String _ _ =>
                if Ascii.eqb c ">"
                then lex_go (SChars EmptyString) (Close acc :: out) s'
                else if blank c then lex_go (SCloseEnd acc) out s'
                else None
            end
          else if Ascii.eqb c ">"
               then lex_go (SChars EmptyString) (Open acc [] :: out) s'
          else if Ascii.eqb c "/" then lex_go (SSlash acc []) out s'
          else if blank c then lex_go (SAttrs acc [] true) out s'
          else None
      | SCloseEnd name =>
          if Ascii.eqb c ">"
          then lex_go (SChars EmptyString) (Close name :: out) s'
          else if blank c then lex_go (SCloseEnd name) out s'
          else None
      | SAttrs name attrs sep =>
          if Ascii.eqb c ">"
          then lex_go (SChars EmptyString) (Open name (rev attrs) :: out) s'
          else if Ascii.eqb c "/" then lex_go (SSlash name attrs) out s'
          else if blank c then lex_go (SAttrs name attrs true) out s'
          else if sep && name_char c
               then lex_go (SAttrName name attrs (String c EmptyString)) out s'
               else None
      | SAttrName name attrs acc =>
          if Ascii.eqb c "=" then
            lex_go (SAttrQuote name attrs acc) out s'
          else if name_char c
               then lex_go (SAttrName name attrs (snoc acc c)) out s'
               else None
      | SAttrQuote name attrs aname =>
          if Ascii.eqb c "034"
          then lex_go (SAttrValue name attrs aname EmptyString) out s'
          else None
      | SAttrValue name attrs aname acc =>
          if Ascii.eqb c "034"
          then lex_go (SAttrs name ((aname, acc) :: attrs) false) out s'
          else if value_char c
               then lex_go (SAttrValue name attrs aname (snoc acc c)) out s'
               else None
      | SSlash name attrs =>
          if Ascii.eqb c ">"
          then lex_go (SChars EmptyString) (Empty name (rev attrs) :: out) s'
          else None
      end
  end.

Definition lex (s : string) : option (list token) :=
  lex_go (SChars EmptyString) [] s.

Fixpoint all_blank (s : string) : bool :=
  match s with
  | EmptyString => true
  | String c s' => blank c && all_blank s'
  end.

Fixpoint distinct_names (attrs : list (string * string)) : bool :=
  match attrs with
  | [] => true
  | (n, _) :: attrs' =>
      negb (existsb (fun a => String.eqb (fst a) n) attrs')
      && distinct_names attrs'
  end.

(** Tags nest, there is one root element, no attribute occurs twice in a
    tag, and only blanks stand outside the root.  [stack] holds the names
    of the elements that are open, [root] tells whether the root element
    has started. *)
Fixpoint nested (stack : list string) (root : bool) (ts : list token)
  : bool :=
  match ts with
  | [] => root && match stack with [] => true | _ :: _ => false end
  | Decl _ :: _ => false
  | Chars t :: ts' =>
      match stack with
      | [] => all_blank t && nested stack root ts'
      | _ :: _ => nested stack root ts'
      end
  | Open n attrs :: ts' =>
      distinct_names attrs
      && match stack with
         | [] => negb root && nested [n] true ts'
         | _ :: _ => nested (n :: stack) root ts'
         end
  | Empty n attrs :: ts' =>
      distinct_names attrs
      && match stack with
         | [] => negb root && nested [] true ts'
         | _ :: _ => nested stack root ts'
         end
  | Close n :: ts' =>
      match stack with
      | m :: stack' => String.eqb n m && nested stack' root ts'
      | [] => false
      end
  end.

(** A well-formed document of the fragment: an optional declaration at
    the very start, then properly nested tags. *)
Definition well_formed (doc : string) : bool :=
  match lex doc with
  | Some (Decl _ :: ts) => nested [] false ts
  | Some ts => nested [] false ts
  | None => false
  end.

(** The elements called [name] among the tokens, with their attributes. *)
Fixpoint elements (name : string) (ts : list token)
  : list (list (string * string)) :=
  match ts with
  | [] => []
  | Open n attrs :: ts' | Empty n attrs :: ts' =>
      if String.eqb n name then attrs :: elements name ts'
      else elements name ts'
  | _ :: ts' => elements name ts'
  end.

(** The attributes of every start and empty-element tag, in order. *)
Fixpoint tags (ts : list token) : list (list (string * string)) :=
  match ts with
  | [] => []
  | Open _ attrs :: ts' | Empty _ attrs :: ts' => attrs :: tags ts'
  | _ :: ts' => tags ts'
  end.

Fixpoint closings (name : string) (ts : list token) : nat :=
  match ts with
  | [] => 0
  | Close n :: ts' =>
      (if String.eqb n name then 1 else 0) + closings name ts'
  | _ :: ts' => closings name ts'
  end.

End Xml.

(** ** Closed forms, tokens and the steps of a run *)

(** The text of one classpath element and of one factorypath element. *)
Definition classpath_element (kind path : string) : string :=
  "<classpathentry kind=" +:+ dq +:+ kind +:+ dq
  +:+ " path=" +:+ dq +:+ path +:+ dq +:+ "/>".

Definition factorypath_element (kind entry_id : string) : string :=
  "<factorypathentry kind=" +:+ dq +:+ kind +:+ dq
  +:+ " id=" +:+ dq +:+ entry_id +:+ dq
  +:+ " enabled=" +:+ dq +:+ "true" +:+ dq
  +:+ " runInBatchMode=" +:+ dq +:+ "false" +:+ dq +:+ "/>".

Definition classpath_line (e : ClasspathEntry.t) : string :=
  "  " +:+ classpath_element (ClasspathEntry.kind e) (ClasspathEntry.path e).

Definition factorypath_line (e : FactorypathEntry.t) : string :=
  "  " +:+ factorypath_element (FactorypathEntry.kind e)
                               (FactorypathEntry.entry_id e).

Definition xml_header : string :=
  "<?xml version=" +:+ dq +:+ "1.0" +:+ dq
  +:+ " encoding=" +:+ dq +:+ "UTF-8" +:+ dq +:+ "?>".

(** The template of the project file before and after its only field. *)
Definition project_head : string :=
  xml_header +:+ nl +:+ "<projectDescription>" +:+ nl +:+ "    <name>".

Definition project_tail : string :=
  "</name>
    <comment>
    </comment>
    <projects>
    </projects>
    <buildSpec>
        <buildCommand>
            <name>org.python.pydev.PyDevBuilder</name>
            <arguments>
            </arguments>
        </buildCommand>
        <buildCommand>
            <name>org.eclipse.jdt.core.javabuilder</name>
            <arguments>
            </arguments>
        </buildCommand>
    </buildSpec>
    <natures>
        <nature>org.eclipse.jdt.core.javanature</nature>
        <nature>org.python.pydev.pythonNature</nature>
    </natures>
</projectDescription>".

(** The tokens of a document body: before each element, the line feed that
    ends the line before it and its indentation of two spaces. *)
Definition body_tokens (A : Type) (element : A -> Xml.token) (es : list A)
  : list Xml.token :=
  flat_map (fun a => [Xml.Chars (nl +:+ "  "); element a]) es.

Definition classpath_attrs (e : ClasspathEntry.t) : list (string * string) :=
  [("kind", ClasspathEntry.kind e); ("path", ClasspathEntry.path e)].

Definition factorypath_attrs (e : FactorypathEntry.t)
  : list (string * string) :=
  [("kind", FactorypathEntry.kind e); ("id", FactorypathEntry.entry_id e);
   ("enabled", "true"); ("runInBatchMode", "false")].

Definition classpath_safe (e : ClasspathEntry.t) : bool :=
  Xml.safe (ClasspathEntry.kind e) && Xml.safe (ClasspathEntry.path e).

Definition factorypath_safe (e : FactorypathEntry.t) : bool :=
  Xml.safe (FactorypathEntry.kind e) && Xml.safe (FactorypathEntry.entry_id e).

(** The text before the closing tag: a single line feed after the last
    entry, and the two line feeds of the envelope when there is no entry. *)
Definition closing_chars {A : Type} (es : list A) : string :=
  match es with
  | [] => nl +:+ nl
  | _ :: _ => nl
  end.

Definition classpath_tokens (es : list ClasspathEntry.t) : list Xml.token :=
  [ Xml.Decl ("xml version=" +:+ dq +:+ "1.0" +:+ dq
              +:+ " encoding=" +:+ dq +:+ "UTF-8" +:+ dq);
    Xml.Chars nl;
    Xml.Open "classpath" [] ]
  ++ body_tokens _ (fun e => Xml.Empty "classpathentry" (classpath_attrs e)) es
  ++ [ Xml.Chars (closing_chars es); Xml.Close "classpath" ].

Definition factorypath_tokens (es : list FactorypathEntry.t)
  : list Xml.token :=
  [ Xml.Open "factorypath" [] ]
  ++ body_tokens _ (fun e => Xml.Empty "factorypathentry" (factorypath_attrs e))
       es
  ++ [ Xml.Chars (closing_chars es); Xml.Close "factorypath" ].

(** A computation that only reads the environment: it leaves the file
    system as it is and its outcome does not depend on it. *)
Definition readonly {A : Type} (m : M A) : Prop :=
  forall env fs fs2, m env fs2 = (fst (m env fs), fs2).

Definition classpath_file (ws : string) : string :=
  Py.path_join ws [".classpath"].
Definition project_file (ws : string) : string :=
  Py.path_join ws [".project"].
Definition factorypath_file (ws : string) : string :=
  Py.path_join ws [".factorypath"].
Definition jdt_prefs_file (ws : string) : string :=
  Py.path_join ws [".settings"; "org.eclipse.jdt.core.prefs"].
Definition apt_prefs_file (ws : string) : string :=
  Py.path_join ws [".settings"; "org.eclipse.jdt.apt.core.prefs"].

Definition jdt_prefs : string :=
  Py.join nl
    [ "eclipse.preferences.version=1";
      "org.eclipse.jdt.core.compiler.processAnnotations=enabled" ].

Definition apt_prefs : string :=
  Py.join nl
    [ "eclipse.preferences.version=1";
      "org.eclipse.jdt.apt.aptEnabled=true";
      "org.eclipse.jdt.apt.genSrcDir=autogenerated";
      "org.eclipse.jdt.apt.reconcileEnabled=true" ].

(** The name [main] gives the project, from [sys.argv]. *)
Definition project_name_of (sys_argv : list string) : result string :=
  if 1 <? length sys_argv then index sys_argv 1 else Ok "domain-registry".

(** The two lines of [main] that create [.settings] when nothing has that
    name. *)
Definition ensure_settings : M unit :=
  settings <- Os.path_exists ".settings" ;;
  if negb settings then Os.makedirs ".settings" else ret tt.

(** A run of [main] that ends well, step by step: what the build tool
    answered, the documents built from the answers, and the file system
    after each write. *)
Inductive run (env : Env) (fs fs1 : FS) : Prop :=
| Run (ws classpath project factorypath : string)
      (fs_a fs_b fs_c fs_d fs_e : FS)
      (built : forall s, build_dependencies env s = (Ok tt, s))
      (asked : forall s, bazel_info "workspace" env s = (Ok ws, s))
      (classpath_built : forall s, build_classpath env s = (Ok classpath, s))
      (project_built :
         rbind (project_name_of (argv env)) build_project = Ok project)
      (factorypath_built :
         forall s, build_factorypath env s = (Ok factorypath, s))
      (wrote_classpath :
         Os.write_file (classpath_file ws) classpath env fs = (Ok tt, fs_a))
      (wrote_project :
         Os.write_file (project_file ws) project env fs_a = (Ok tt, fs_b))
      (wrote_factorypath :
         Os.write_file (factorypath_file ws) factorypath env fs_b
         = (Ok tt, fs_c))
      (ensured : ensure_settings env fs_c = (Ok tt, fs_d))
      (wrote_jdt :
         Os.write_file (jdt_prefs_file ws) jdt_prefs env fs_d = (Ok tt, fs_e))
      (wrote_apt :
         Os.write_file (apt_prefs_file ws) apt_prefs env fs_e = (Ok tt, fs1)).

(** [a] as the prefix of what lies in the directory [a]. *)
Definition dir_prefix (a : string) : string :=
  if String.eqb a EmptyString || Py.endswith_slash a then a else a +:+ "/".

(** The prefix of the absolute path of what lies in the workspace [ws]. *)
Definition root (env : Env) (ws : string) : string :=
  if Py.startswith_slash (dir_prefix ws) then dir_prefix ws
  else dir_prefix (cwd env) +:+ dir_prefix ws.

Definition settings_dir (env : Env) : string := Os.resolve env ".settings".

Fixpoint last_char (s : string) : option ascii :=
  match s with
  | EmptyString => None
  | String c s' =>
      match s' with
      | EmptyString => Some c
      | String _ _ => last_char s'
      end
  end.

(** The file system a run of [main] leaves: the five files hold the five
    documents, and the only directory that may be new is [.settings] in the
    current directory. *)
Definition final_files (env : Env) (ws cp pj fp : string)
           (m : gmap string string) : gmap string string :=
  <[Os.resolve env (apt_prefs_file ws) := apt_prefs]>
    (<[Os.resolve env (jdt_prefs_file ws) := jdt_prefs]>
       (<[Os.resolve env (factorypath_file ws) := fp]>
          (<[Os.resolve env (project_file ws) := pj]>
             (<[Os.resolve env (classpath_file ws) := cp]> m)))).

Definition final_dirs (env : Env) (fs : FS) : gset string :=
  if Os.is_dir fs (settings_dir env) || Os.is_file fs (settings_dir env)
  then dirs fs
  else {[settings_dir env]} ∪ dirs fs.

(** ** Running again, and running with another command line *)

(** [path] holds [content] and can be written again: writing [content] to
    it changes nothing. *)
Definition file_settled (env : Env) (path content : string) (fs : FS)
  : Prop :=
  String.eqb path EmptyString = false
  /\ Os.is_dir fs (Os.resolve env path) = false
  /\ Os.is_dir fs (Os.dirname (Os.resolve env path)) = true
  /\ files fs !! Os.resolve env path = Some content.

(** Something is called [.settings] in the current directory. *)
Definition settings_settled (env : Env) (fs : FS) : Prop :=
  Os.is_dir fs (settings_dir env) || Os.is_file fs (settings_dir env) = true.

(** Running [m] again, from the file system its first run left, ends the
    same way and changes nothing. *)
Definition idempotent {A : Type} (env : Env) (m : M A) : Prop :=
  forall fs r fs1, m env fs = (r, fs1) -> m env fs1 = (r, fs1).

(** [m] keeps what [Q] says of the file system. *)
Definition preserves {A : Type} (env : Env) (Q : FS -> Prop) (m : M A)
  : Prop :=
  forall fs r fs1, m env fs = (r, fs1) -> Q fs -> Q fs1.

(** Two file systems with the same directories and the same files, which
    hold the same bytes except for the file [exempt], if there is one. *)
Definition same_but (exempt : option string) (fs fs' : FS) : Prop :=
  dirs fs' = dirs fs
  /\ (forall p, Os.is_file fs' p = Os.is_file fs p)
  /\ (forall p, exempt <> Some p -> files fs' !! p = files fs !! p).

(** Two outcomes that are the same exception, or two values that [R]
    relates. *)
Definition outcomes {A : Type} (R : A -> A -> Prop) (r r' : result A)
  : Prop :=
  match r, r' with
  | Ok a, Ok a' => R a a'
  | Raise e, Raise e' => e = e'
  | _, _ => False
  end.

(** [m] under [env] and [m'] under [env'] go the same way from file
    systems that agree but for the file [exempt], and leave file systems
    that agree but for that file. *)
Definition in_step {A : Type} (R : A -> A -> Prop) (exempt : option string)
           (env env' : Env) (m m' : M A) : Prop :=
  forall fs fs',
    same_but exempt fs fs' ->
    outcomes R (fst (m env fs)) (fst (m' env' fs'))
    /\ same_but exempt (snd (m env fs)) (snd (m' env' fs')).

(** What the build tool answers when asked for the workspace; the file
    system plays no part in it. *)
Definition workspace_of (env : Env) : result string :=
  fst (bazel_info "workspace" env {| files := ∅; dirs := ∅ |}).

(** The project file of that workspace, when the build tool names one. *)
Definition project_path (env : Env) : option string :=
  match workspace_of env with
  | Ok ws => Some (Os.resolve env (Py.path_join ws [".project"]))
  | Raise _ => None
  end.

(** ** Commands, entries and paths of a run; what a run changes *)

(** The three command lines [build_dependencies] runs, in order. *)
Definition build_commands : list (list string) :=
  [ ["bazel"; "build";
     "//java/google/registry/..."; "//javatests/google/registry/..."];
    ["bazel"; "build"; "//java/google/registry/eclipse:eclipse_deps"];
    ["bazel"; "build";
     "//java/google/registry/eclipse:annotation_processors_ide_deploy.jar"] ].

(** The command [args] can be started and exits with status 0. *)
Definition built (env : Env) (args : list string) : Prop :=
  exists out, spawn env args = Some (out, 0%Z).

(** The entries [build_classpath] lists, given what the build tool
    answered for [bazel-genfiles]. *)
Definition classpath_entries (bazel_genfiles : string)
  : list ClasspathEntry.t :=
  [ ClasspathEntry.Build "con" "org.eclipse.jdt.launching.JRE_CONTAINER";
    ClasspathEntry.Build "src" "java";
    ClasspathEntry.Build "src" "javatests";
    ClasspathEntry.Build "src" "bazel-genfiles/java";
    ClasspathEntry.Build "lib"
      (bazel_genfiles +:+ "/java/google/registry/eclipse/eclipse_deps.jar");
    ClasspathEntry.Build "output" "bin" ].

(** The entries [build_factorypath] lists, given what the build tool
    answered for [bazel-bin]: the jar lies under that directory, after a
    separator unless the answer is empty or ends with one. *)
Definition factorypath_entries (bazel_bin : string)
  : list FactorypathEntry.t :=
  [ FactorypathEntry.Build "PLUGIN" "org.eclipse.jst.ws.annotations.core";
    FactorypathEntry.Build "EXTJAR"
      (dir_prefix bazel_bin
       +:+ "java/google/registry/eclipse/annotation_processors_ide_deploy.jar")
  ].








(** A string of white space, as [str.strip] understands it. *)
Fixpoint all_space (s : string) : bool :=
  match s with
  | EmptyString => true
  | String c s' => Py.isspace c && all_space s'
  end.

Fixpoint last_two (s : string) : option (ascii * ascii) :=
  match s with
  | EmptyString => None
  | String a s' =>
      match s' with
      | EmptyString => None
      | String b s'' =>
          match s'' with
          | EmptyString => Some (a, b)
          | String _ _ => last_two s'
          end
      end
  end.

(** A string of printable ASCII characters, from the space to the tilde:
    bytes that stand for themselves in an XML document, whatever encoding
    it is read in, and that no parser changes in an attribute value. *)
Definition printable (c : ascii) : bool :=
  let n := nat_of_ascii c in (32 <=? n) && (n <=? 126).

Fixpoint all_printable (s : string) : bool :=
  match s with
  | EmptyString => true
  | String c s' => printable c && all_printable s'
  end.

(** Text that can stand between two tags as it is. *)
Fixpoint text_safe (s : string) : bool :=
  match s with
  | EmptyString => true
  | String c s' => negb (Ascii.eqb c "<" || Ascii.eqb c "&") && text_safe s'
  end.

(** The tokens of the project file of the project [name]. *)
Definition project_tokens (name : string) : list Xml.token :=
  [ Xml.Decl ("xml version=" +:+ dq +:+ "1.0" +:+ dq
              +:+ " encoding=" +:+ dq +:+ "UTF-8" +:+ dq);
    Xml.Chars nl;
    Xml.Open "projectDescription" [];
    Xml.Chars (nl +:+ "    ");
    Xml.Open "name" [] ]
  ++ match name with
     | EmptyString => []
     | String _ _ => [Xml.Chars name]
     end
  ++ [ Xml.Close "name";
       Xml.Chars (nl +:+ "    "); Xml.Open "comment" [];
       Xml.Chars (nl +:+ "    "); Xml.Close "comment";
       Xml.Chars (nl +:+ "    "); Xml.Open "projects" [];
       Xml.Chars (nl +:+ "    "); Xml.Close "projects";
       Xml.Chars (nl +:+ "    "); Xml.Open "buildSpec" [];
       Xml.Chars (nl +:+ "        "); Xml.Open "buildCommand" [];
       Xml.Chars (nl +:+ "            "); Xml.Open "name" [];
       Xml.Chars "org.python.pydev.PyDevBuilder"; Xml.Close "name";
       Xml.Chars (nl +:+ "            "); Xml.Open "arguments" [];
       Xml.Chars (nl +:+ "            "); Xml.Close "arguments";
       Xml.Chars (nl +:+ "        "); Xml.Close "buildCommand";
       Xml.Chars (nl +:+ "        "); Xml.Open "buildCommand" [];
       Xml.Chars (nl +:+ "            "); Xml.Open "name" [];
       Xml.Chars "org.eclipse.jdt.core.javabuilder"; Xml.Close "name";
       Xml.Chars (nl +:+ "            "); Xml.Open "arguments" [];
       Xml.Chars (nl +:+ "            "); Xml.Close "arguments";
       Xml.Chars (nl +:+ "        "); Xml.Close "buildCommand";
       Xml.Chars (nl +:+ "    "); Xml.Close "buildSpec";
       Xml.Chars (nl +:+ "    "); Xml.Open "natures" [];
       Xml.Chars (nl +:+ "        "); Xml.Open "nature" [];
       Xml.Chars "org.eclipse.jdt.core.javanature"; Xml.Close "nature";
       Xml.Chars (nl +:+ "        "); Xml.Open "nature" [];
       Xml.Chars "org.python.pydev.pythonNature"; Xml.Close "nature";
       Xml.Chars (nl +:+ "    "); Xml.Close "natures";
       Xml.Chars nl; Xml.Close "projectDescription" ].

(** Entries whose values hold no line feed. *)
Definition classpath_single_line (e : ClasspathEntry.t) : bool :=
  Text.single_line (ClasspathEntry.kind e)
  && Text.single_line (ClasspathEntry.path e).

Definition factorypath_single_line (e : FactorypathEntry.t) : bool :=
  Text.single_line (FactorypathEntry.kind e)
  && Text.single_line (FactorypathEntry.entry_id e).

(** Reading a document back: the record of an element, from the two
    attributes that carry its values, and the records of all the elements
    called [tag] in a text, in order. *)
Definition read_entry {A : Type} (make : string -> string -> A)
           (first second : string) (attrs : list (string * string))
  : option A :=
  match Py.kw_lookup first attrs, Py.kw_lookup second attrs with
  | Some a, Some b => Some (make a b)
  | _, _ => None
  end.

Fixpoint read_all {A : Type} (read : list (string * string) -> option A)
         (elements : list (list (string * string))) : option (list A) :=
  match elements with
  | [] => Some []
  | attrs :: elements' =>
      match read attrs, read_all read elements' with
      | Some a, Some rest => Some (a :: rest)
      | _, _ => None
      end
  end.

Definition read_classpath (doc : string) : option (list ClasspathEntry.t) :=
  match Xml.lex doc with
  | Some ts =>
      read_all (read_entry ClasspathEntry.Build "kind" "path")
               (Xml.elements "classpathentry" ts)
  | None => None
  end.

Definition read_factorypath (doc : string)
  : option (list FactorypathEntry.t) :=
  match Xml.lex doc with
  | Some ts =>
      read_all (read_entry FactorypathEntry.Build "kind" "id")
               (Xml.elements "factorypathentry" ts)
  | None => None
  end.

(** ** Readings of the specification, and sample runs *)

(** The first line that is not empty once stripped: what a reader that
    skips blank lines would return. *)
Definition first_nonempty_line (stdout : string) : option string :=
  find (fun l => negb (String.eqb l EmptyString))
       (map Py.strip (Py.iter_readline stdout)).

(** How many attributes each tag of a text has. *)
Definition attribute_counts (text : string) : option (list nat) :=
  option_map (fun ts => map (fun attrs => length attrs) (Xml.tags ts))
             (Xml.lex text).

(** How many elements called [name] a text holds. *)
Definition element_count (name text : string) : option nat :=
  option_map (fun ts => length (Xml.elements name ts)) (Xml.lex text).

(** A build tool that answers the three queries of the script, prints
    nothing for any other query, and builds every target.  [workspace] is
    what it prints for the workspace. *)
Definition answers (workspace : string) (args : list string)
  : option (string * Z) :=
  match args with
  | [_; "info"; key] =>
      if String.eqb key "workspace" then Some (workspace, 0%Z)
      else if String.eqb key "bazel-genfiles"
           then Some ("/out/genfiles" +:+ nl, 0%Z)
      else if String.eqb key "bazel-bin" then Some ("/out/bin" +:+ nl, 0%Z)
      else Some (EmptyString, 2%Z)
  | _ => Some (EmptyString, 0%Z)
  end.

Definition env0 : Env := {|
  argv := ["setup_eclipse.py"];
  cwd := "/ws";
  spawn := answers ("/ws" +:+ nl)
|}.

Definition env_named : Env := {|
  argv := ["setup_eclipse.py"; "nomulus"];
  cwd := "/ws";
  spawn := answers ("/ws" +:+ nl)
|}.

(** The build tool prints a blank line before the workspace. *)
Definition env_blank : Env := {|
  argv := ["setup_eclipse.py"];
  cwd := "/ws";
  spawn := answers (nl +:+ "/ws" +:+ nl)
|}.

(** A workspace that holds nothing yet. *)
Definition fs0 : FS := {| files := ∅; dirs := {["/ws"]} |}.

(** The file system a run leaves. *)
Definition after (env : Env) (fs : FS) : FS := snd (main env fs).

Definition sample_classpath : list ClasspathEntry.t :=
  [ ClasspathEntry.Build "con" "org.eclipse.jdt.launching.JRE_CONTAINER";
    ClasspathEntry.Build "src" "java";
    ClasspathEntry.Build "output" "bin" ].

Definition sample_factorypath : list FactorypathEntry.t :=
  [ FactorypathEntry.Build "PLUGIN" "org.eclipse.jst.ws.annotations.core" ].

(** A path that closes its attribute and its element and opens another
    element. *)
Definition injected_path : string :=
  "java" +:+ dq +:+ "/>" +:+ nl
  +:+ "  <classpathentry kind=" +:+ dq +:+ "src" +:+ dq
  +:+ " path=" +:+ dq +:+ "javatests".


(** A second argument after the project name, and another program name. *)
Definition env_more : Env := {|
  argv := ["./setup_eclipse.py"; "nomulus"; "--verbose"];
  cwd := "/ws";
  spawn := answers ("/ws" +:+ nl)
|}.

(** ** The primitives on small inputs *)

Example strip_line : Py.strip ("  /home/ws " +:+ nl) = "/home/ws".
Proof. reflexivity. Qed.

Example strip_blank : Py.strip (" " +:+ nl) = EmptyString.
Proof. reflexivity. Qed.

Example join_three : Py.join ", " ["a"; "b"; "c"] = "a, b, c".
Proof. reflexivity. Qed.

Example join_one : Py.join nl ["a"] = "a".
Proof. reflexivity. Qed.

Example format_fields :
  Py.format "{a}-{b}-{a}" [("a", "1"); ("b", "2")] = Ok "1-2-1".
Proof. reflexivity. Qed.

Example format_not_scanned_again :
  Py.format "<{a}>" [("a", "{b}")] = Ok "<{b}>".
Proof. reflexivity. Qed.

Example format_braces : Py.format "{{a}}" [] = Ok "{a}".
Proof. reflexivity. Qed.

Example format_missing : Py.format "{a}" [("b", "2")] = Raise KeyError.
Proof. reflexivity. Qed.

Example format_positional : Py.format "{}" [("a", "1")] = Raise IndexError.
Proof. reflexivity. Qed.

Example format_unclosed : Py.format "{a" [("a", "1")] = Raise ValueError.
Proof. reflexivity. Qed.

Example percent_one : Py.percent "%s/x.jar" ["/out"] = Ok "/out/x.jar".
Proof. reflexivity. Qed.

Example percent_missing : Py.percent "%s/%s" ["/out"] = Raise TypeError.
Proof. reflexivity. Qed.

Example readline_twice :
  Py.iter_readline ("a" +:+ nl +:+ "b") = ["a" +:+ nl; "b"].
Proof. reflexivity. Qed.

Example readline_blank_lines :
  Py.iter_readline (nl +:+ nl) = [nl; nl].
Proof. reflexivity. Qed.

Example join_paths :
  Py.path_join "/ws" [".settings"; "a.prefs"] = "/ws/.settings/a.prefs".
Proof. reflexivity. Qed.

Example join_after_separator : Py.path_join "/ws/" [".classpath"] = "/ws/.classpath".
Proof. reflexivity. Qed.

Example join_absolute : Py.path_join "/ws" ["/out/bin"] = "/out/bin".
Proof. reflexivity. Qed.

Example join_empty : Py.path_join EmptyString [".classpath"] = ".classpath".
Proof. reflexivity. Qed.

Example split_path : Os.split "/ws/.settings" = ("/ws", ".settings").
Proof. reflexivity. Qed.

Example split_root : Os.split "/ws" = ("/", "ws").
Proof. reflexivity. Qed.

Example split_trailing : Os.split "/ws/.settings/" = ("/ws/.settings", EmptyString).
Proof. reflexivity. Qed.

Example makedirs_nested :
  snd (Os.makedirs "a/b" env0 fs0)
  = {| files := ∅; dirs := {["/ws/a/b"]} ∪ ({["/ws/a"]} ∪ {["/ws"]}) |}.
Proof. reflexivity. Qed.

Example makedirs_existing :
  Os.makedirs ".settings" env0 (after env0 fs0)
  = (Raise OSError, after env0 fs0).
Proof. vm_compute. reflexivity. Qed.

Example write_without_directory :
  Os.write_file "/nowhere/.classpath" "x" env0 fs0 = (Raise IOError, fs0).
Proof. reflexivity. Qed.

Example lex_element :
  Xml.lex ("<a b=" +:+ dq +:+ "c" +:+ dq +:+ "/>")
  = Some [Xml.Empty "a" [("b", "c")]].
Proof. reflexivity. Qed.

Example lex_unquoted : Xml.lex "<a b=c/>" = None.
Proof. reflexivity. Qed.

Example unbalanced : Xml.well_formed "<a><b></a>" = false.
Proof. reflexivity. Qed.

(** A run in an empty workspace writes the five files and creates the
    directory. *)
Example main_writes_five_files :
  fst (main env0 fs0) = Ok tt
  /\ map fst (map_to_list (files (after env0 fs0)))
     ≡ₚ [ "/ws/.classpath"; "/ws/.project"; "/ws/.factorypath";
          "/ws/.settings/org.eclipse.jdt.core.prefs";
          "/ws/.settings/org.eclipse.jdt.apt.core.prefs" ]
  /\ dirs (after env0 fs0) = {["/ws/.settings"]} ∪ {["/ws"]}.
Proof.
  split; [vm_compute; reflexivity |]. split.
  - vm_compute. apply NoDup_Permutation.
    + repeat constructor; rewrite ?elem_of_cons, ?elem_of_nil;
        intros H; repeat destruct H as [H|H]; try discriminate H; exact H.
    + repeat constructor; rewrite ?elem_of_cons, ?elem_of_nil;
        intros H; repeat destruct H as [H|H]; try discriminate H; exact H.
    + intros x. rewrite !elem_of_cons, !elem_of_nil. tauto.
  - vm_compute. reflexivity.
Qed.

(** Without a build tool nothing is written. *)
Example main_without_bazel :
  main {| argv := ["setup_eclipse.py"]; cwd := "/ws";
          spawn := fun _ => None |} fs0
  = (Raise OSError, fs0).
Proof. reflexivity. Qed.

(** When the workspace is not the current directory and has no [.settings]
    directory, the directory is created in the current directory and the
    first preference file cannot be written; the three files written
    before stay. *)
Example main_from_elsewhere :
  fst (main {| argv := ["setup_eclipse.py"]; cwd := "/home";
               spawn := answers ("/ws" +:+ nl) |}
            {| files := ∅; dirs := {["/ws"]} ∪ {["/home"]} |})
  = Raise IOError.
Proof. vm_compute. reflexivity. Qed.

(** ** Facts about strings *)

Section StringFacts.

Lemma append_nil_r (s : string) : s +:+ EmptyString = s.
Proof. induction s as [|c s IH]; simpl; [reflexivity | now rewrite IH]. Qed.

Lemma append_assoc (a b c : string) : (a +:+ b) +:+ c = a +:+ b +:+ c.
Proof. induction a as [|x a IH]; simpl; [reflexivity | now rewrite IH]. Qed.

Lemma append_inv_head (p a b : string) : p +:+ a = p +:+ b -> a = b.
Proof.
  induction p as [|x p IH]; simpl; intros H; [exact H |].
  injection H as H. now apply IH.
Qed.

Lemma prefix_append (p s : string) : String.prefix p (p +:+ s) = true.
Proof.
  induction p as [|x p IH]; simpl.
  - now destruct s.
  - destruct (ascii_dec x x) as [_|Hne]; [exact IH | now destruct Hne].
Qed.

Lemma contains_prefix (p s : string) :
  String.prefix p s = true -> Text.contains p s = true.
Proof. intros H. destruct s; simpl in *; now rewrite H. Qed.

Lemma contains_here (p s : string) : Text.contains p (p +:+ s) = true.
Proof. apply contains_prefix, prefix_append. Qed.

Lemma contains_append (p a s : string) :
  Text.contains p s = true -> Text.contains p (a +:+ s) = true.
Proof.
  intros H. induction a as [|x a IH]; simpl; [exact H |].
  rewrite IH. apply orb_true_r.
Qed.

Lemma contains_middle (p a b : string) :
  Text.contains p (a +:+ p +:+ b) = true.
Proof. apply contains_append, contains_here. Qed.

Lemma has_char_append (c : ascii) (a b : string) :
  Text.has_char c (a +:+ b) = Text.has_char c a || Text.has_char c b.
Proof.
  induction a as [|x a IH]; simpl; [reflexivity |].
  now rewrite IH, orb_assoc.
Qed.

Lemma single_line_append (a b : string) :
  Text.single_line (a +:+ b) = Text.single_line a && Text.single_line b.
Proof. unfold Text.single_line. now rewrite has_char_append, negb_orb. Qed.

End StringFacts.

(** ** The text the pure functions return *)

Lemma classpath_entry_xml_eq (kind path : string) :
  classpath_entry_xml kind path = Ok (classpath_element kind path).
Proof. reflexivity. Qed.

Lemma factorypath_entry_xml_eq (kind entry_id : string) :
  factorypath_entry_xml kind entry_id = Ok (factorypath_element kind entry_id).
Proof. reflexivity. Qed.

Lemma comprehension_total {A B : Type} (f : A -> result B) (g : A -> B)
      (l : list A) :
  (forall a, f a = Ok (g a)) -> comprehension f l = Ok (map g l).
Proof.
  intros Hf. induction l as [|a l IH]; simpl; [reflexivity |].
  now rewrite Hf, IH.
Qed.

Lemma classpath_xml_eq (entries : list ClasspathEntry.t) :
  classpath_xml entries
  = Ok (xml_header +:+ nl +:+ "<classpath>" +:+ nl
        +:+ Py.join nl (map classpath_line entries)
        +:+ nl +:+ "</classpath>").
Proof.
  unfold classpath_xml.
  rewrite (comprehension_total _ classpath_line); [reflexivity |].
  intros e. reflexivity.
Qed.

Lemma factorypath_xml_eq (entries : list FactorypathEntry.t) :
  factorypath_xml entries
  = Ok ("<factorypath>" +:+ nl
        +:+ Py.join nl (map factorypath_line entries)
        +:+ nl +:+ "</factorypath>").
Proof.
  unfold factorypath_xml.
  rewrite (comprehension_total _ factorypath_line); [reflexivity |].
  intros e. reflexivity.
Qed.

Lemma build_project_eq (project_name : string) :
  build_project project_name
  = Ok (project_head +:+ project_name +:+ project_tail).
Proof. reflexivity. Qed.

(** ** Lexing the generated elements *)

Lemma lex_value (v : string) :
  Xml.safe v = true ->
  forall name attrs aname acc out rest,
    Xml.lex_go (Xml.SAttrValue name attrs aname acc) out
               (v +:+ String "034" rest)
    = Xml.lex_go (Xml.SAttrs name ((aname, acc +:+ v) :: attrs) false) out rest.
Proof.
  induction v as [|c v IH]; intros Hs name attrs aname acc out rest.
  - simpl. now rewrite append_nil_r.
  - simpl in Hs. apply andb_true_iff in Hs as [Hc Hv].
    simpl. rewrite Hc.
    assert (Ascii.eqb c "034" = false) as ->.
    { unfold Xml.value_char in Hc. apply negb_true_iff in Hc.
      now repeat (apply orb_false_elim in Hc as [Hc _]). }
    rewrite IH by exact Hv. unfold Xml.snoc. now rewrite append_assoc.
Qed.

Ltac lex_steps :=
  repeat first
    [ rewrite append_assoc
    | rewrite lex_value by assumption
    | progress unfold Xml.snoc
    | progress simpl ].

Lemma lex_classpath_line (kind path : string) :
  Xml.safe kind = true -> Xml.safe path = true ->
  forall out rest,
    Xml.lex_go (Xml.SChars nl) out
               (("  " +:+ classpath_element kind path) +:+ rest)
    = Xml.lex_go (Xml.SChars EmptyString)
        (Xml.Empty "classpathentry" [("kind", kind); ("path", path)]
         :: Xml.Chars (nl +:+ "  ") :: out)
        rest.
Proof.
  intros Hk Hp out rest. unfold classpath_element, dq.
  lex_steps. reflexivity.
Qed.

Lemma lex_factorypath_line (kind entry_id : string) :
  Xml.safe kind = true -> Xml.safe entry_id = true ->
  forall out rest,
    Xml.lex_go (Xml.SChars nl) out
               (("  " +:+ factorypath_element kind entry_id) +:+ rest)
    = Xml.lex_go (Xml.SChars EmptyString)
        (Xml.Empty "factorypathentry"
           [("kind", kind); ("id", entry_id);
            ("enabled", "true"); ("runInBatchMode", "false")]
         :: Xml.Chars (nl +:+ "  ") :: out)
        rest.
Proof.
  intros Hk Hp out rest. unfold factorypath_element, dq.
  lex_steps. reflexivity.
Qed.

(** The lines of a document body, for any kind of entry whose line lexes to
    an indentation and one element. *)
Section Body.

Variable A : Type.
Variable line : A -> string.
Variable element : A -> Xml.token.
Variable ok : A -> bool.

Hypothesis lex_line :
  forall a, ok a = true ->
  forall out rest,
    Xml.lex_go (Xml.SChars nl) out (line a +:+ rest)
    = Xml.lex_go (Xml.SChars EmptyString)
        (element a :: Xml.Chars (nl +:+ "  ") :: out) rest.

Lemma lex_body (e : A) (es : list A) :
  forallb ok (e :: es) = true ->
  forall out rest,
    Xml.lex_go (Xml.SChars nl) out (Py.join nl (map line (e :: es)) +:+ rest)
    = Xml.lex_go (Xml.SChars EmptyString)
        (rev (body_tokens A element (e :: es)) ++ out) rest.
Proof.
  revert e. induction es as [|e' es IH]; intros e Hok out rest.
  - simpl in Hok. rewrite andb_true_r in Hok.
    simpl. now rewrite lex_line.
  - change (forallb ok (e :: e' :: es))
      with (ok e && forallb ok (e' :: es)) in Hok.
    apply andb_true_iff in Hok as [He Hes].
    change (Py.join nl (map line (e :: e' :: es)))
      with (line e +:+ nl +:+ Py.join nl (map line (e' :: es))).
    rewrite !append_assoc, lex_line by exact He.
    change (nl +:+ Py.join nl (map line (e' :: es)) +:+ rest)
      with (String "010" (Py.join nl (map line (e' :: es)) +:+ rest)).
    cbn [Xml.lex_go]. change (Ascii.eqb "010" "<") with false.
    change (Ascii.eqb "010" "&") with false. cbv iota.
    change (Xml.snoc EmptyString "010") with nl.
    rewrite IH by exact Hes.
    change (body_tokens A element (e :: e' :: es))
      with ([Xml.Chars (nl +:+ "  "); element e]
            ++ body_tokens A element (e' :: es)).
    rewrite rev_app_distr, <- app_assoc. reflexivity.
Qed.

End Body.

Lemma lex_classpath_entry (e : ClasspathEntry.t) :
  classpath_safe e = true ->
  forall out rest,
    Xml.lex_go (Xml.SChars nl) out (classpath_line e +:+ rest)
    = Xml.lex_go (Xml.SChars EmptyString)
        (Xml.Empty "classpathentry" (classpath_attrs e)
         :: Xml.Chars (nl +:+ "  ") :: out) rest.
Proof.
  intros H. apply andb_true_iff in H as [Hk Hp].
  intros out rest. now apply lex_classpath_line.
Qed.

Lemma lex_factorypath_entry (e : FactorypathEntry.t) :
  factorypath_safe e = true ->
  forall out rest,
    Xml.lex_go (Xml.SChars nl) out (factorypath_line e +:+ rest)
    = Xml.lex_go (Xml.SChars EmptyString)
        (Xml.Empty "factorypathentry" (factorypath_attrs e)
         :: Xml.Chars (nl +:+ "  ") :: out) rest.
Proof.
  intros H. apply andb_true_iff in H as [Hk Hp].
  intros out rest. now apply lex_factorypath_line.
Qed.

Lemma lex_classpath_document (es : list ClasspathEntry.t) :
  forallb classpath_safe es = true ->
  Xml.lex (xml_header +:+ nl +:+ "<classpath>" +:+ nl
           +:+ Py.join nl (map classpath_line es)
           +:+ nl +:+ "</classpath>")
  = Some (classpath_tokens es).
Proof.
  intros Hok. destruct es as [|e es]; [reflexivity |].
  remember (e :: es) as l eqn:El.
  unfold Xml.lex, xml_header, dq. simpl. unfold Xml.snoc. simpl.
  subst l.
  rewrite (lex_body _ _ _ _ lex_classpath_entry) by exact Hok.
  unfold classpath_tokens, closing_chars.
  generalize (body_tokens _
                (fun e0 => Xml.Empty "classpathentry" (classpath_attrs e0))
                (e :: es)).
  intros body. simpl. rewrite rev_app_distr, rev_involutive.
  simpl. rewrite <- !app_assoc. reflexivity.
Qed.

Lemma lex_factorypath_document (es : list FactorypathEntry.t) :
  forallb factorypath_safe es = true ->
  Xml.lex ("<factorypath>" +:+ nl
           +:+ Py.join nl (map factorypath_line es)
           +:+ nl +:+ "</factorypath>")
  = Some (factorypath_tokens es).
Proof.
  intros Hok. destruct es as [|e es]; [reflexivity |].
  remember (e :: es) as l eqn:El.
  unfold Xml.lex. simpl. unfold Xml.snoc. simpl.
  subst l.
  rewrite (lex_body _ _ _ _ lex_factorypath_entry) by exact Hok.
  unfold factorypath_tokens, closing_chars.
  generalize (body_tokens _
                (fun e0 => Xml.Empty "factorypathentry" (factorypath_attrs e0))
                (e :: es)).
  intros body. simpl. rewrite rev_app_distr, rev_involutive.
  simpl. rewrite <- !app_assoc. reflexivity.
Qed.

Lemma elements_body {A : Type} (name tag : string)
      (attrs : A -> list (string * string)) (es : list A)
      (tail : list Xml.token) :
  Xml.elements name (body_tokens _ (fun e => Xml.Empty tag (attrs e)) es ++ tail)
  = (if String.eqb tag name then map attrs es else []) ++ Xml.elements name tail.
Proof.
  induction es as [|e es IH]; simpl.
  - now destruct (String.eqb tag name).
  - rewrite IH. now destruct (String.eqb tag name).
Qed.

Lemma closings_body {A : Type} (name tag : string)
      (attrs : A -> list (string * string)) (es : list A)
      (tail : list Xml.token) :
  Xml.closings name (body_tokens _ (fun e => Xml.Empty tag (attrs e)) es ++ tail)
  = Xml.closings name tail.
Proof. induction es as [|e es IH]; simpl; [reflexivity | exact IH]. Qed.

Lemma nested_body {A : Type} (name : string)
      (attrs : A -> list (string * string)) (es : list A)
      (root : string) (tail : list Xml.token) :
  (forall e, Xml.distinct_names (attrs e) = true) ->
  Xml.nested [root] true
    (body_tokens _ (fun e => Xml.Empty name (attrs e)) es ++ tail)
  = Xml.nested [root] true tail.
Proof.
  intros Hd. induction es as [|e es IH]; simpl; [reflexivity |].
  rewrite Hd. exact IH.
Qed.

Lemma lex_classpath_element (kind path : string) :
  Xml.safe kind = true -> Xml.safe path = true ->
  Xml.lex (classpath_element kind path)
  = Some [Xml.Empty "classpathentry" [("kind", kind); ("path", path)]].
Proof.
  intros Hk Hp. unfold Xml.lex, classpath_element, dq.
  lex_steps. reflexivity.
Qed.

Lemma lex_factorypath_element (kind entry_id : string) :
  Xml.safe kind = true -> Xml.safe entry_id = true ->
  Xml.lex (factorypath_element kind entry_id)
  = Some [Xml.Empty "factorypathentry"
            [("kind", kind); ("id", entry_id);
             ("enabled", "true"); ("runInBatchMode", "false")]].
Proof.
  intros Hk Hp. unfold Xml.lex, factorypath_element, dq.
  lex_steps. reflexivity.
Qed.

Lemma single_line_classpath_element (kind path : string) :
  Text.single_line (classpath_element kind path)
  = Text.single_line kind && Text.single_line path.
Proof.
  unfold classpath_element. rewrite !single_line_append.
  change (Text.single_line dq) with true.
  change (Text.single_line "<classpathentry kind=") with true.
  change (Text.single_line " path=") with true.
  change (Text.single_line "/>") with true.
  simpl. now rewrite !andb_true_r.
Qed.

Lemma single_line_factorypath_element (kind entry_id : string) :
  Text.single_line (factorypath_element kind entry_id)
  = Text.single_line kind && Text.single_line entry_id.
Proof.
  unfold factorypath_element. rewrite !single_line_append.
  change (Text.single_line dq) with true.
  change (Text.single_line "<factorypathentry kind=") with true.
  change (Text.single_line " id=") with true.
  change (Text.single_line " enabled=") with true.
  change (Text.single_line "true") with true.
  change (Text.single_line " runInBatchMode=") with true.
  change (Text.single_line "false") with true.
  change (Text.single_line "/>") with true.
  simpl. now rewrite !andb_true_r.
Qed.

(** ** Reading the standard output of a child process *)

Lemma readline_append (s : string) :
  fst (Py.readline s) +:+ snd (Py.readline s) = s.
Proof.
  induction s as [|c s IH]; simpl; [reflexivity |].
  destruct (Ascii.eqb c "010"); simpl; [reflexivity |].
  destruct (Py.readline s) as [l r]. simpl in *. now rewrite IH.
Qed.

Lemma readline_rest (c : ascii) (s : string) :
  String.length (snd (Py.readline (String c s))) <= String.length s.
Proof.
  revert c. induction s as [|c' s IH]; intros c; simpl.
  - destruct (Ascii.eqb c "010"); simpl; lia.
  - destruct (Ascii.eqb c "010"); simpl; [lia |].
    specialize (IH c'). simpl in IH.
    destruct (Ascii.eqb c' "010"); simpl in *; [lia |].
    destruct (Py.readline s) as [l r]. simpl in *. lia.
Qed.

Lemma readline_first (c : ascii) (s : string) :
  fst (Py.readline (String c s)) <> EmptyString.
Proof.
  simpl. destruct (Ascii.eqb c "010"); [discriminate |].
  destruct (Py.readline s). discriminate.
Qed.

(** The loop over [readline] ends by itself: with more fuel than the
    stream has bytes, the amount of fuel changes nothing. *)
Lemma iter_readline_go_fuel (n : nat) :
  forall m s, String.length s < n -> String.length s < m ->
  Py.iter_readline_go n s = Py.iter_readline_go m s.
Proof.
  induction n as [|n IH]; intros m s Hn Hm; [lia |].
  destruct m as [|m]; [lia |].
  destruct s as [|c s]; [reflexivity |].
  cbn [Py.iter_readline_go].
  pose proof (readline_rest c s) as Hr.
  destruct (Py.readline (String c s)) as [l r]. simpl in Hr, Hn, Hm.
  destruct (String.eqb l EmptyString); [reflexivity |].
  f_equal. apply IH; lia.
Qed.

Lemma iter_readline_fuel (n : nat) (s : string) :
  String.length s < n -> Py.iter_readline_go n s = Py.iter_readline s.
Proof. intros Hn. apply iter_readline_go_fuel; [exact Hn | lia]. Qed.

Lemma iter_readline_nonempty (c : ascii) (s : string) :
  Py.iter_readline (String c s)
  = fst (Py.readline (String c s))
    :: Py.iter_readline (snd (Py.readline (String c s))).
Proof.
  unfold Py.iter_readline at 1.
  change (Py.iter_readline_go (S (String.length (String c s))) (String c s))
    with (let '(l, r) := Py.readline (String c s) in
          if String.eqb l EmptyString then []
          else l :: Py.iter_readline_go (String.length (String c s)) r).
  pose proof (readline_rest c s) as Hr.
  pose proof (readline_first c s) as Hf.
  destruct (Py.readline (String c s)) as [l r].
  cbn [fst snd] in Hr, Hf |- *.
  apply String.eqb_neq in Hf. rewrite Hf.
  f_equal. apply iter_readline_fuel. simpl. lia.
Qed.

(** The lines read are the whole stream, cut after each line feed. *)
Lemma iter_readline_concat (s : string) :
  fold_right String.append EmptyString (Py.iter_readline s) = s.
Proof.
  remember (String.length s) as n eqn:En.
  revert s En. induction n as [n IH] using lt_wf_ind. intros s En.
  destruct s as [|c s]; [reflexivity |].
  rewrite iter_readline_nonempty. cbn [fold_right].
  pose proof (readline_rest c s) as Hr.
  rewrite (IH (String.length (snd (Py.readline (String c s))))).
  - apply readline_append.
  - subst n. cbn [String.length]. lia.
  - reflexivity.
Qed.

Lemma iter_readline_nil (s : string) :
  Py.iter_readline s = [] <-> s = EmptyString.
Proof.
  split; intros H.
  - destruct s as [|c s]; [reflexivity |].
    rewrite iter_readline_nonempty in H. discriminate.
  - subst s. reflexivity.
Qed.

(** ** The monad *)

Lemma bind_ok {A B : Type} (m : M A) (k : A -> M B) env fs a fs' :
  m env fs = (Ok a, fs') -> bind m k env fs = k a env fs'.
Proof. unfold bind. now intros ->. Qed.

Lemma bind_raise {A B : Type} (m : M A) (k : A -> M B) env fs e fs' :
  m env fs = (Raise e, fs') -> bind m k env fs = (Raise e, fs').
Proof. unfold bind. now intros ->. Qed.

Lemma bind_inv {A B : Type} (m : M A) (k : A -> M B) env fs b fs2 :
  bind m k env fs = (Ok b, fs2) ->
  exists a fs', m env fs = (Ok a, fs') /\ k a env fs' = (Ok b, fs2).
Proof.
  unfold bind. destruct (m env fs) as [[a|e] fs']; [|discriminate].
  intros H. now exists a, fs'.
Qed.

Lemma bind_assoc {A B C : Type} (m : M A) (f : A -> M B) (g : B -> M C)
      env fs :
  bind (bind m f) g env fs = bind m (fun a => bind (f a) g) env fs.
Proof. unfold bind. now destruct (m env fs) as [[a|e] fs']. Qed.

Lemma readonly_ret {A : Type} (a : A) : readonly (ret a).
Proof. intros env fs fs2. reflexivity. Qed.

Lemma readonly_lift {A : Type} (r : result A) : readonly (lift r).
Proof. intros env fs fs2. reflexivity. Qed.

Lemma readonly_bind {A B : Type} (m : M A) (k : A -> M B) :
  readonly m -> (forall a, readonly (k a)) -> readonly (bind m k).
Proof.
  intros Hm Hk env fs fs2. unfold bind.
  rewrite (Hm env fs fs2).
  destruct (m env fs) as [[a|e] fs']; simpl; [apply Hk | reflexivity].
Qed.

Lemma readonly_if {A : Type} (b : bool) (m1 m2 : M A) :
  readonly m1 -> readonly m2 -> readonly (if b then m1 else m2).
Proof. now destruct b. Qed.

Lemma readonly_popen_stdout (args : list string) :
  readonly (Os.popen_stdout args).
Proof.
  intros env fs fs2. unfold Os.popen_stdout.
  now destruct (spawn env args) as [[out st]|].
Qed.

Lemma readonly_check_call (args : list string) :
  readonly (Os.check_call args).
Proof.
  intros env fs fs2. unfold Os.check_call.
  destruct (spawn env args) as [[out st]|]; [|reflexivity].
  now destruct (Z.eqb st 0).
Qed.

Lemma readonly_sys_argv : readonly Os.sys_argv.
Proof. intros env fs fs2. reflexivity. Qed.

Lemma readonly_bazel_info (key : string) : readonly (bazel_info key).
Proof.
  apply readonly_bind; [apply readonly_popen_stdout |].
  intros out. apply readonly_lift.
Qed.

Lemma readonly_build_classpath : readonly build_classpath.
Proof.
  apply readonly_bind; [apply readonly_bazel_info | intros g].
  apply readonly_bind; [apply readonly_lift | intros l].
  apply readonly_lift.
Qed.

Lemma readonly_build_factorypath : readonly build_factorypath.
Proof.
  apply readonly_bind; [apply readonly_bazel_info | intros b].
  apply readonly_lift.
Qed.

Lemma readonly_build_dependencies : readonly build_dependencies.
Proof.
  apply readonly_bind; [apply readonly_check_call | intros _].
  apply readonly_bind; [apply readonly_check_call | intros _].
  apply readonly_check_call.
Qed.

Lemma readonly_run {A : Type} (m : M A) env fs r fs' :
  readonly m -> m env fs = (r, fs') ->
  fs' = fs /\ forall fs2, m env fs2 = (r, fs2).
Proof.
  intros Hm H. split.
  - pose proof (Hm env fs fs) as E. rewrite H in E. simpl in E. congruence.
  - intros fs2. rewrite (Hm env fs fs2), H. reflexivity.
Qed.

(** ** The steps of [main] *)

Ltac step H x s :=
  let E := fresh "E" in
  apply bind_inv in H as (x & s & E & H).

Ltac unit_states :=
  repeat match goal with
         | u : unit |- _ => destruct u
         end.

Lemma lift_inv {A : Type} (r : result A) env s a s' :
  lift r env s = (Ok a, s') -> r = Ok a /\ s' = s.
Proof. unfold lift. intros H. split; congruence. Qed.

Lemma project_name_inv env s name s' :
  (if 1 <? length (argv env)
   then lift (index (argv env) 1)
   else ret "domain-registry") env s = (Ok name, s') ->
  project_name_of (argv env) = Ok name /\ s' = s.
Proof.
  unfold project_name_of. destruct (1 <? length (argv env)).
  - apply lift_inv.
  - unfold ret. intros H. split; congruence.
Qed.

Lemma main_run env fs fs1 : main env fs = (Ok tt, fs1) -> run env fs fs1.
Proof.
  intros H. unfold main in H.
  step H u0 t0. step H ws t1. step H cp t2. step H u1 st_a.
  step H av t3. step H name t4. step H pj t5. step H u2 st_b.
  step H fp t6. step H u3 st_c. step H found t7. step H u4 st_d. step H u5 st_e.
  unit_states.
  apply (readonly_run _ _ _ _ _ readonly_build_dependencies) in E as [-> Hb].
  apply (readonly_run _ _ _ _ _ (readonly_bazel_info _)) in E0 as [-> Hw].
  apply (readonly_run _ _ _ _ _ readonly_build_classpath) in E1 as [-> Hc].
  unfold Os.sys_argv in E3. injection E3 as <- <-.
  apply project_name_inv in E4 as [Hn ->].
  apply lift_inv in E5 as [Hp ->].
  apply (readonly_run _ _ _ _ _ readonly_build_factorypath) in E7 as [-> Hf].
  apply (Run env fs fs1 ws cp pj fp st_a st_b st_c st_d st_e); try assumption.
  - now rewrite Hn.
  - unfold ensure_settings. rewrite (bind_ok _ _ _ _ _ _ E9). exact E10.
Qed.

(** ** Paths *)

Lemma path_join2_relative (a b : string) :
  Py.startswith_slash b = false -> Py.path_join2 a b = dir_prefix a +:+ b.
Proof.
  intros Hb. unfold Py.path_join2, dir_prefix. rewrite Hb.
  destruct (String.eqb a EmptyString || Py.endswith_slash a);
    [reflexivity | symmetry; apply append_assoc].
Qed.

Lemma append_nonempty (d s : string) :
  s <> EmptyString -> d +:+ s <> EmptyString.
Proof. intros Hs. destruct d; simpl; [exact Hs | discriminate]. Qed.

Lemma endswith_slash_append (d s : string) :
  s <> EmptyString -> Py.endswith_slash (d +:+ s) = Py.endswith_slash s.
Proof.
  intros Hs. induction d as [|c d IH]; [reflexivity |].
  change (String c d +:+ s) with (String c (d +:+ s)).
  cbn [Py.endswith_slash].
  destruct (d +:+ s) eqn:E; [|exact IH].
  now apply append_nonempty in E.
Qed.

Lemma dir_prefix_settings (d : string) :
  dir_prefix (d +:+ ".settings") = d +:+ ".settings/".
Proof.
  unfold dir_prefix.
  rewrite endswith_slash_append by discriminate.
  assert (String.eqb (d +:+ ".settings") EmptyString = false) as ->.
  { apply String.eqb_neq, append_nonempty. discriminate. }
  simpl. now rewrite append_assoc.
Qed.

Lemma resolve_under env ws x :
  Py.startswith_slash x = false ->
  Os.resolve env (dir_prefix ws +:+ x) = root env ws +:+ x.
Proof.
  intros Hx. unfold Os.resolve, root.
  destruct (dir_prefix ws) as [|c d] eqn:E.
  - simpl. rewrite path_join2_relative by exact Hx.
    now rewrite append_nil_r.
  - change (String c d +:+ x) with (String c (d +:+ x)).
    unfold Py.path_join2 at 1.
    change (Py.startswith_slash (String c (d +:+ x)))
      with (Py.startswith_slash (String c d)).
    destruct (Py.startswith_slash (String c d)) eqn:Hs; [reflexivity |].
    change (String c (d +:+ x)) with (String c d +:+ x).
    rewrite <- append_assoc.
    destruct (String.eqb (cwd env) EmptyString || Py.endswith_slash (cwd env))
      eqn:Hc; unfold dir_prefix at 1; rewrite Hc;
      now rewrite ?append_assoc.
Qed.

Lemma resolve_classpath_file env ws :
  Os.resolve env (classpath_file ws) = root env ws +:+ ".classpath".
Proof.
  unfold classpath_file, Py.path_join. simpl fold_left.
  rewrite path_join2_relative by reflexivity. now apply resolve_under.
Qed.

Lemma resolve_project_file env ws :
  Os.resolve env (project_file ws) = root env ws +:+ ".project".
Proof.
  unfold project_file, Py.path_join. simpl fold_left.
  rewrite path_join2_relative by reflexivity. now apply resolve_under.
Qed.

Lemma resolve_factorypath_file env ws :
  Os.resolve env (factorypath_file ws) = root env ws +:+ ".factorypath".
Proof.
  unfold factorypath_file, Py.path_join. simpl fold_left.
  rewrite path_join2_relative by reflexivity. now apply resolve_under.
Qed.

Lemma resolve_jdt_prefs_file env ws :
  Os.resolve env (jdt_prefs_file ws)
  = root env ws +:+ ".settings/org.eclipse.jdt.core.prefs".
Proof.
  unfold jdt_prefs_file, Py.path_join. simpl fold_left.
  rewrite (path_join2_relative ws) by reflexivity.
  rewrite path_join2_relative by reflexivity.
  rewrite dir_prefix_settings, append_assoc. now apply resolve_under.
Qed.

Lemma resolve_apt_prefs_file env ws :
  Os.resolve env (apt_prefs_file ws)
  = root env ws +:+ ".settings/org.eclipse.jdt.apt.core.prefs".
Proof.
  unfold apt_prefs_file, Py.path_join. simpl fold_left.
  rewrite (path_join2_relative ws) by reflexivity.
  rewrite path_join2_relative by reflexivity.
  rewrite dir_prefix_settings, append_assoc. now apply resolve_under.
Qed.

(** ** Creating directories *)

Lemma rpartition_length (p : string) :
  String.length (fst (Os.rpartition p)) + String.length (snd (Os.rpartition p))
  = String.length p.
Proof.
  induction p as [|c p IH]; [reflexivity |].
  simpl. destruct (Os.rpartition p) as [h t]. simpl in IH.
  destruct h as [|c' h].
  - destruct (Ascii.eqb c "/"); simpl in *; lia.
  - simpl in *. lia.
Qed.

Lemma rstrip_slash_length (s : string) :
  String.length (Os.rstrip_slash s) <= String.length s.
Proof.
  induction s as [|c s IH]; [reflexivity |].
  simpl. destruct (Os.rstrip_slash s) as [|c' r].
  - destruct (Ascii.eqb c "/"); simpl in *; lia.
  - simpl in *. lia.
Qed.

Lemma split_length (p : string) :
  String.length (fst (Os.split p)) + String.length (snd (Os.split p))
  <= String.length p.
Proof.
  unfold Os.split. pose proof (rpartition_length p) as H.
  destruct (Os.rpartition p) as [h t]. simpl in H.
  pose proof (rstrip_slash_length h) as Hs.
  destruct (Os.rstrip_slash h) as [|c r]; simpl in *; lia.
Qed.

(** The recursion of [makedirs] ends by itself: with as much fuel as the
    name has bytes, the amount of fuel changes nothing. *)
Lemma makedirs_go_fuel (n : nat) :
  forall m name env fs,
    String.length name <= n -> String.length name <= m ->
    Os.makedirs_go n name env fs = Os.makedirs_go m name env fs.
Proof.
  induction n as [|n IH]; intros m name env fs Hn Hm.
  - destruct name; [|simpl in Hn; lia]. destruct m; reflexivity.
  - destruct m as [|m].
    + destruct name; [|simpl in Hm; lia]. reflexivity.
    + cbn [Os.makedirs_go].
      pose proof (split_length name) as H1.
      destruct (Os.split name) as [head tail]. simpl in H1.
      pose proof (split_length head) as H2.
      destruct (String.eqb tail EmptyString) eqn:Et.
      * destruct (Os.split head) as [head2 tail2]. simpl in H2.
        destruct (negb (String.eqb head2 EmptyString)
                  && negb (String.eqb tail2 EmptyString)) eqn:Ec;
          [|reflexivity].
        apply andb_true_iff in Ec as [_ Ec]. apply negb_true_iff in Ec.
        apply String.eqb_neq in Ec.
        assert (String.length tail2 <> 0) by (destruct tail2; simpl; congruence).
        unfold bind. destruct (Os.path_exists head2 env fs) as [[[]|e] s];
          try reflexivity.
        simpl. rewrite (IH m head2 env s) by lia. reflexivity.
      * destruct (negb (String.eqb head EmptyString)
                  && negb (String.eqb tail EmptyString)) eqn:Ec;
          [|reflexivity].
        apply String.eqb_neq in Et.
        assert (String.length tail <> 0) by (destruct tail; simpl; congruence).
        unfold bind. destruct (Os.path_exists head env fs) as [[[]|e] s];
          try reflexivity.
        simpl. rewrite (IH m head env s) by lia. reflexivity.
Qed.

Lemma makedirs_fuel (n : nat) (name : string) env fs :
  String.length name <= n ->
  Os.makedirs_go n name env fs = Os.makedirs name env fs.
Proof. intros Hn. now apply makedirs_go_fuel. Qed.

(** ** Writing files and creating the settings directory *)

Lemma write_file_inv path content env fs fs' :
  Os.write_file path content env fs = (Ok tt, fs') ->
  String.eqb path EmptyString = false
  /\ Os.is_dir fs (Os.resolve env path) = false
  /\ Os.is_dir fs (Os.dirname (Os.resolve env path)) = true
  /\ files fs' = <[Os.resolve env path := content]> (files fs)
  /\ dirs fs' = dirs fs.
Proof.
  unfold Os.write_file.
  destruct (String.eqb path EmptyString); [discriminate |].
  destruct (Os.is_dir fs (Os.resolve env path)); [discriminate |].
  destruct (Os.is_dir fs (Os.dirname (Os.resolve env path))); [|discriminate].
  intros H. injection H as <-. repeat split.
Qed.

(** Writing to a file what it already holds changes nothing. *)
Lemma write_file_same path content env fs :
  String.eqb path EmptyString = false ->
  Os.is_dir fs (Os.resolve env path) = false ->
  Os.is_dir fs (Os.dirname (Os.resolve env path)) = true ->
  files fs !! Os.resolve env path = Some content ->
  Os.write_file path content env fs = (Ok tt, fs).
Proof.
  intros Hp Hd Hparent Hc. unfold Os.write_file.
  rewrite Hp, Hd, Hparent, (insert_id _ _ _ Hc). now destruct fs.
Qed.

Lemma ensure_settings_inv env fs fs' :
  ensure_settings env fs = (Ok tt, fs') ->
  files fs' = files fs
  /\ ((Os.is_dir fs (settings_dir env) || Os.is_file fs (settings_dir env)
       = true /\ dirs fs' = dirs fs)
      \/ (Os.is_dir fs (settings_dir env) = false
          /\ Os.is_file fs (settings_dir env) = false
          /\ dirs fs' = {[settings_dir env]} ∪ dirs fs)).
Proof.
  unfold ensure_settings. intros H.
  apply bind_inv in H as (found & t & He & H).
  unfold Os.path_exists in He.
  change (String.eqb ".settings" EmptyString) with false in He.
  cbv iota in He. fold (settings_dir env) in He. injection He as <- <-.
  destruct (Os.is_dir fs (settings_dir env) || Os.is_file fs (settings_dir env))
    eqn:E.
  - change (negb true) with false in H. cbv iota in H.
    unfold ret in H. injection H as <-. split; [reflexivity |].
    left. now split.
  - change (negb false) with true in H. cbv iota in H.
    change (Os.makedirs ".settings" env fs)
      with (Os.mkdir ".settings" env fs) in H.
    unfold Os.mkdir in H.
    change (String.eqb ".settings" EmptyString) with false in H.
    cbv iota in H. fold (settings_dir env) in H. rewrite E in H.
    destruct (Os.is_dir fs (Os.dirname (settings_dir env))); [|discriminate].
    injection H as <-. split; [reflexivity |].
    right. apply orb_false_elim in E as [E1 E2]. now repeat split.
Qed.

Lemma ensure_settings_same env fs :
  Os.is_dir fs (settings_dir env) || Os.is_file fs (settings_dir env) = true ->
  ensure_settings env fs = (Ok tt, fs).
Proof.
  intros E. unfold ensure_settings, bind, Os.path_exists.
  change (String.eqb ".settings" EmptyString) with false.
  cbv iota. fold (settings_dir env). now rewrite E.
Qed.

Lemma is_file_insert fs fs' p a c :
  files fs' = <[a := c]> (files fs) ->
  Os.is_file fs p = true -> Os.is_file fs' p = true.
Proof.
  unfold Os.is_file. intros -> H.
  apply bool_decide_eq_true in H. apply bool_decide_eq_true.
  destruct (decide (a = p)) as [->|Hne].
  - rewrite lookup_insert_eq. eauto.
  - now rewrite lookup_insert_ne.
Qed.

Lemma last_char_append (d s : string) :
  s <> EmptyString -> last_char (d +:+ s) = last_char s.
Proof.
  intros Hs. induction d as [|c d IH]; [reflexivity |].
  change (String c d +:+ s) with (String c (d +:+ s)).
  cbn [last_char].
  destruct (d +:+ s) eqn:E; [|exact IH].
  now apply append_nonempty in E.
Qed.

Lemma settings_dir_eq env :
  settings_dir env = dir_prefix (cwd env) +:+ ".settings".
Proof. unfold settings_dir, Os.resolve. now apply path_join2_relative. Qed.

(** The directory [main] may create is none of the three files it has
    written by then. *)
Lemma settings_dir_not_written env ws :
  settings_dir env <> Os.resolve env (classpath_file ws)
  /\ settings_dir env <> Os.resolve env (project_file ws)
  /\ settings_dir env <> Os.resolve env (factorypath_file ws).
Proof.
  rewrite settings_dir_eq, resolve_classpath_file, resolve_project_file,
    resolve_factorypath_file.
  repeat split; intros H; apply (f_equal last_char) in H;
    rewrite !last_char_append in H by discriminate; discriminate.
Qed.

Lemma output_files_ne env ws :
  let A1 := Os.resolve env (classpath_file ws) in
  let A2 := Os.resolve env (project_file ws) in
  let A3 := Os.resolve env (factorypath_file ws) in
  let A4 := Os.resolve env (jdt_prefs_file ws) in
  let A5 := Os.resolve env (apt_prefs_file ws) in
  A1 <> A2 /\ A1 <> A3 /\ A1 <> A4 /\ A1 <> A5 /\ A2 <> A3 /\ A2 <> A4
  /\ A2 <> A5 /\ A3 <> A4 /\ A3 <> A5 /\ A4 <> A5.
Proof.
  intros A1 A2 A3 A4 A5. subst A1 A2 A3 A4 A5.
  rewrite resolve_classpath_file, resolve_project_file,
    resolve_factorypath_file, resolve_jdt_prefs_file, resolve_apt_prefs_file.
  repeat split; intros H; apply append_inv_head in H; discriminate.
Qed.

Lemma run_final env fs fs1 ws cp pj fp st_a st_b st_c st_d st_e :
  Os.write_file (classpath_file ws) cp env fs = (Ok tt, st_a) ->
  Os.write_file (project_file ws) pj env st_a = (Ok tt, st_b) ->
  Os.write_file (factorypath_file ws) fp env st_b = (Ok tt, st_c) ->
  ensure_settings env st_c = (Ok tt, st_d) ->
  Os.write_file (jdt_prefs_file ws) jdt_prefs env st_d = (Ok tt, st_e) ->
  Os.write_file (apt_prefs_file ws) apt_prefs env st_e = (Ok tt, fs1) ->
  files fs1 = final_files env ws cp pj fp (files fs)
  /\ dirs fs1 = final_dirs env fs.
Proof.
  intros Wc Wp Wf Hs Wj Wa.
  apply write_file_inv in Wc as (_ & _ & _ & Fa & Da).
  apply write_file_inv in Wp as (_ & _ & _ & Fb & Db).
  apply write_file_inv in Wf as (_ & _ & _ & Fc & Dc).
  apply ensure_settings_inv in Hs as (Fd & Hd).
  apply write_file_inv in Wj as (_ & _ & _ & Fe & De).
  apply write_file_inv in Wa as (_ & _ & _ & F1 & D1).
  split.
  - unfold final_files. now rewrite F1, Fe, Fd, Fc, Fb, Fa.
  - rewrite D1, De. unfold final_dirs.
    destruct (settings_dir_not_written env ws) as (N1 & N2 & N3).
    assert (Os.is_dir st_c (settings_dir env) = Os.is_dir fs (settings_dir env))
      as Edir.
    { unfold Os.is_dir. now rewrite Dc, Db, Da. }
    assert (Os.is_file st_c (settings_dir env) = Os.is_file fs (settings_dir env))
      as Efile.
    { unfold Os.is_file. rewrite Fc, Fb, Fa.
      now rewrite !lookup_insert_ne by congruence. }
    rewrite Edir, Efile in Hd.
    destruct Hd as [[E ->]|(E1 & E2 & ->)].
    + rewrite E. now rewrite Dc, Db, Da.
    + rewrite E1, E2. simpl. now rewrite Dc, Db, Da.
Qed.

Lemma is_dir_false fs p : Os.is_dir fs p = false <-> p ∉ dirs fs.
Proof. unfold Os.is_dir. apply bool_decide_eq_false. Qed.

Lemma is_dir_true fs p : Os.is_dir fs p = true <-> p ∈ dirs fs.
Proof. unfold Os.is_dir. apply bool_decide_eq_true. Qed.

(** After a run that ended well, the current directory holds something
    called [.settings]. *)
Lemma run_settings env fs fs1 :
  run env fs fs1 ->
  Os.is_dir fs1 (settings_dir env) || Os.is_file fs1 (settings_dir env) = true.
Proof.
  intros [ws cp pj fp st_a st_b st_c st_d st_e _ _ _ _ _ _ _ _ Hs Wj Wa].
  apply ensure_settings_inv in Hs as (Fd & Hd).
  apply write_file_inv in Wj as (_ & _ & _ & Fe & De).
  apply write_file_inv in Wa as (_ & _ & _ & F1 & D1).
  assert (dirs fs1 = dirs st_d) as D1d by congruence.
  destruct Hd as [[E Hd]|(_ & _ & Hd)].
  - apply orb_true_iff in E as [E|E]; apply orb_true_iff; [left | right].
    + rewrite is_dir_true in *. rewrite D1d, Hd. exact E.
    + apply (is_file_insert st_e _ _ _ _ F1).
      apply (is_file_insert st_d _ _ _ _ Fe).
      unfold Os.is_file in *. now rewrite Fd.
  - apply orb_true_iff. left. rewrite is_dir_true, D1d, Hd.
    apply elem_of_union_l, elem_of_singleton. reflexivity.
Qed.

(** ** Running [main] again *)

Lemma write_file_raise path content env fs e fs' :
  Os.write_file path content env fs = (Raise e, fs') -> fs' = fs.
Proof.
  unfold Os.write_file.
  destruct (String.eqb path EmptyString); [congruence |].
  destruct (Os.is_dir fs (Os.resolve env path)); [congruence |].
  destruct (Os.is_dir fs (Os.dirname (Os.resolve env path))); congruence.
Qed.

Lemma write_file_settles path content env fs fs' :
  Os.write_file path content env fs = (Ok tt, fs') ->
  file_settled env path content fs'.
Proof.
  intros H. apply write_file_inv in H as (P & I & J & F & D).
  unfold file_settled, Os.is_dir in *. rewrite D, F.
  repeat split; try assumption. apply lookup_insert_eq.
Qed.

Lemma write_file_settled path content env fs :
  file_settled env path content fs ->
  Os.write_file path content env fs = (Ok tt, fs).
Proof. intros (P & I & J & F). now apply write_file_same. Qed.

Lemma mkdir_settings_raise env fs e fs' :
  Os.makedirs ".settings" env fs = (Raise e, fs') -> fs' = fs.
Proof.
  change (Os.makedirs ".settings" env fs) with (Os.mkdir ".settings" env fs).
  unfold Os.mkdir. change (String.eqb ".settings" EmptyString) with false.
  cbv iota.
  destruct (Os.is_dir fs (Os.resolve env ".settings")
            || Os.is_file fs (Os.resolve env ".settings")); [congruence |].
  destruct (Os.is_dir fs (Os.dirname (Os.resolve env ".settings")));
    congruence.
Qed.

Lemma mkdir_settings_inv env fs fs' :
  Os.makedirs ".settings" env fs = (Ok tt, fs') ->
  files fs' = files fs /\ dirs fs' = {[settings_dir env]} ∪ dirs fs.
Proof.
  change (Os.makedirs ".settings" env fs) with (Os.mkdir ".settings" env fs).
  unfold Os.mkdir. change (String.eqb ".settings" EmptyString) with false.
  cbv iota. fold (settings_dir env).
  destruct (Os.is_dir fs (settings_dir env) || Os.is_file fs (settings_dir env));
    [discriminate |].
  destruct (Os.is_dir fs (Os.dirname (settings_dir env))); [|discriminate].
  intros H. injection H as <-. now split.
Qed.

Lemma ensure_settings_raise env fs e fs' :
  ensure_settings env fs = (Raise e, fs') -> fs' = fs.
Proof.
  unfold ensure_settings, bind, Os.path_exists.
  change (String.eqb ".settings" EmptyString) with false. cbv iota.
  destruct (negb (Os.is_dir fs (Os.resolve env ".settings")
                  || Os.is_file fs (Os.resolve env ".settings")));
    [apply mkdir_settings_raise | unfold ret; congruence].
Qed.

Lemma ensure_settings_settles env fs fs' :
  ensure_settings env fs = (Ok tt, fs') -> settings_settled env fs'.
Proof.
  intros H. apply ensure_settings_inv in H as (F & [[E D]|(_ & _ & D)]);
    unfold settings_settled.
  - unfold Os.is_dir, Os.is_file in *. now rewrite D, F.
  - apply orb_true_iff. left. rewrite is_dir_true, D.
    apply elem_of_union_l, elem_of_singleton. reflexivity.
Qed.

Section Again.

Variable env : Env.

Lemma idempotent_ext {A : Type} (m m' : M A) :
  (forall fs, m env fs = m' env fs) -> idempotent env m' -> idempotent env m.
Proof. intros E H fs r fs1. rewrite !E. apply H. Qed.

Lemma idempotent_bind_readonly {A B : Type} (m : M A) (k : A -> M B) :
  readonly m -> (forall a, idempotent env (k a)) -> idempotent env (bind m k).
Proof.
  intros Hm Hk fs r fs1 H. unfold bind in *.
  destruct (m env fs) as [[a|e] s] eqn:E;
    apply (readonly_run _ _ _ _ _ Hm) in E as [-> E].
  - rewrite (E fs1). now apply (Hk a fs).
  - injection H as <- <-. now rewrite (E fs).
Qed.

Lemma idempotent_write_file path content :
  idempotent env (Os.write_file path content).
Proof.
  intros fs [[]|e] fs1 H.
  - now apply write_file_settled, (write_file_settles _ _ _ fs).
  - pose proof (write_file_raise _ _ _ _ _ _ H) as ->. exact H.
Qed.

Lemma idempotent_bind_write {B : Type} path content (k : unit -> M B) :
  idempotent env (k tt) ->
  preserves env (file_settled env path content) (k tt) ->
  idempotent env (bind (Os.write_file path content) k).
Proof.
  intros Hk Hp fs r fs1 H. unfold bind in H.
  destruct (Os.write_file path content env fs) as [[[]|e] s] eqn:E.
  - apply write_file_settles in E.
    rewrite (bind_ok _ _ _ _ _ _
               (write_file_settled _ _ _ _ (Hp _ _ _ H E))).
    now apply (Hk s).
  - injection H as <- <-.
    pose proof (write_file_raise _ _ _ _ _ _ E) as ->.
    now apply bind_raise.
Qed.

Lemma idempotent_bind_ensure {B : Type} (k : unit -> M B) :
  idempotent env (k tt) ->
  preserves env (settings_settled env) (k tt) ->
  idempotent env (bind ensure_settings k).
Proof.
  intros Hk Hp fs r fs1 H. unfold bind in H.
  destruct (ensure_settings env fs) as [[[]|e] s] eqn:E.
  - apply ensure_settings_settles in E.
    rewrite (bind_ok _ _ _ _ _ _ (ensure_settings_same _ _ (Hp _ _ _ H E))).
    now apply (Hk s).
  - injection H as <- <-.
    pose proof (ensure_settings_raise _ _ _ _ E) as ->.
    now apply bind_raise.
Qed.

Lemma preserves_readonly {A : Type} (Q : FS -> Prop) (m : M A) :
  readonly m -> preserves env Q m.
Proof.
  intros Hm fs r fs1 H. now apply (readonly_run _ _ _ _ _ Hm) in H as [-> _].
Qed.

Lemma preserves_bind {A B : Type} (Q : FS -> Prop) (m : M A) (k : A -> M B) :
  preserves env Q m -> (forall a, preserves env Q (k a)) ->
  preserves env Q (bind m k).
Proof.
  intros Hm Hk fs r fs1 H HQ. unfold bind in H.
  destruct (m env fs) as [[a|e] s] eqn:E.
  - apply (Hk a s r fs1 H). now apply (Hm fs (Ok a) s).
  - injection H as <- <-. now apply (Hm fs (Raise e) s).
Qed.

Lemma preserves_if {A : Type} (Q : FS -> Prop) (b : bool) (m1 m2 : M A) :
  preserves env Q m1 -> preserves env Q m2 ->
  preserves env Q (if b then m1 else m2).
Proof. now destruct b. Qed.

Lemma preserves_path_exists (Q : FS -> Prop) (p : string) :
  preserves env Q (Os.path_exists p).
Proof.
  intros fs r fs1 H. unfold Os.path_exists in H.
  destruct (String.eqb p EmptyString); now injection H as _ <-.
Qed.

Lemma preserves_file_write path content other text :
  Os.resolve env other <> Os.resolve env path ->
  preserves env (file_settled env path content) (Os.write_file other text).
Proof.
  intros Hne fs [[]|e] fs1 H (P & I & J & F).
  - apply write_file_inv in H as (_ & _ & _ & F1 & D1).
    unfold file_settled, Os.is_dir in *. rewrite D1, F1.
    repeat split; try assumption. now rewrite lookup_insert_ne.
  - pose proof (write_file_raise _ _ _ _ _ _ H) as ->. now repeat split.
Qed.

Lemma preserves_file_makedirs path content :
  Os.resolve env path <> settings_dir env ->
  preserves env (file_settled env path content) (Os.makedirs ".settings").
Proof.
  intros Hne fs [[]|e] fs1 H (P & I & J & F).
  - apply mkdir_settings_inv in H as (F1 & D1).
    rewrite is_dir_false in I. rewrite is_dir_true in J.
    unfold file_settled. rewrite is_dir_false, is_dir_true, D1, F1.
    repeat split; try assumption.
    + rewrite elem_of_union, elem_of_singleton. tauto.
    + now apply elem_of_union_r.
  - pose proof (mkdir_settings_raise _ _ _ _ H) as ->. now repeat split.
Qed.

Lemma preserves_settings_write path content :
  preserves env (settings_settled env) (Os.write_file path content).
Proof.
  intros fs [[]|e] fs1 H HQ.
  - apply write_file_inv in H as (_ & _ & _ & F1 & D1).
    unfold settings_settled in *.
    apply orb_true_iff in HQ as [HQ|HQ]; apply orb_true_iff; [left | right].
    + unfold Os.is_dir in *. now rewrite D1.
    + now apply (is_file_insert fs _ _ _ _ F1).
  - now pose proof (write_file_raise _ _ _ _ _ _ H) as ->.
Qed.

End Again.

Lemma readonly_project_name (sys_argv : list string) :
  readonly (if 1 <? length sys_argv
            then lift (index sys_argv 1)
            else ret "domain-registry").
Proof. apply readonly_if; [apply readonly_lift | apply readonly_ret]. Qed.

(** What each write of [main] has settled stays settled to the end. *)
Ltac keeps :=
  repeat first
    [ apply preserves_readonly;
      first [ apply readonly_sys_argv | apply readonly_project_name
            | apply readonly_lift | apply readonly_ret
            | apply readonly_build_factorypath ]
    | apply preserves_path_exists
    | apply preserves_settings_write
    | apply preserves_file_write; congruence
    | apply preserves_file_makedirs; congruence
    | apply preserves_if
    | apply preserves_bind; [| intros ?] ].

(** A second run of [main], from the file system the first run left, ends
    as the first one did and changes nothing, whether the first run ended
    well or raised. *)
Lemma main_again env : idempotent env main.
Proof.
  unfold main.
  apply idempotent_bind_readonly; [apply readonly_build_dependencies | intros _].
  apply idempotent_bind_readonly; [apply readonly_bazel_info | intros ws].
  apply idempotent_bind_readonly; [apply readonly_build_classpath | intros cp].
  destruct (output_files_ne env ws)
    as (N12 & N13 & N14 & N15 & N23 & N24 & N25 & N34 & N35 & N45).
  destruct (settings_dir_not_written env ws) as (S1 & S2 & S3).
  unfold classpath_file, project_file, factorypath_file, jdt_prefs_file,
    apt_prefs_file in *.
  apply idempotent_bind_write; [| keeps].
  apply idempotent_bind_readonly; [apply readonly_sys_argv | intros av].
  apply idempotent_bind_readonly; [apply readonly_project_name | intros name].
  apply idempotent_bind_readonly; [apply readonly_lift | intros pj].
  apply idempotent_bind_write; [| keeps].
  apply idempotent_bind_readonly; [apply readonly_build_factorypath | intros fp].
  apply idempotent_bind_write; [| keeps].
  eapply idempotent_ext; [intros fs; symmetry; apply bind_assoc |].
  apply idempotent_bind_ensure; [| keeps].
  apply idempotent_bind_write; [| keeps].
  apply idempotent_write_file.
Qed.

(** ** Running [main] with another command line *)

Lemma outcomes_refl {A : Type} (r : result A) : outcomes eq r r.
Proof. now destruct r. Qed.

Lemma outcomes_eq {A : Type} (r r' : result A) : outcomes eq r r' -> r' = r.
Proof. destruct r, r'; simpl; intros H; congruence || contradiction. Qed.

Lemma same_but_refl exempt fs : same_but exempt fs fs.
Proof. now repeat split. Qed.

Lemma project_name_ok (sys_argv : list string) env fs :
  exists name,
    (if 1 <? length sys_argv
     then lift (index sys_argv 1)
     else ret "domain-registry") env fs = (Ok name, fs).
Proof. destruct sys_argv as [|script [|name rest]]; eexists; reflexivity. Qed.

Section OtherCommandLine.

Variables env env' : Env.
Variable exempt : option string.

Hypothesis same_cwd : cwd env' = cwd env.
Hypothesis same_answers : forall args, spawn env' args = spawn env args.

Lemma bazel_info_env key fs : bazel_info key env' fs = bazel_info key env fs.
Proof.
  unfold bazel_info, bind, Os.popen_stdout. now rewrite same_answers.
Qed.

Lemma build_classpath_env fs : build_classpath env' fs = build_classpath env fs.
Proof. unfold build_classpath, bind. now rewrite bazel_info_env. Qed.

Lemma build_factorypath_env fs :
  build_factorypath env' fs = build_factorypath env fs.
Proof. unfold build_factorypath, bind. now rewrite bazel_info_env. Qed.

Lemma build_dependencies_env fs :
  build_dependencies env' fs = build_dependencies env fs.
Proof.
  unfold build_dependencies, bind, Os.check_call.
  now rewrite !same_answers.
Qed.

Lemma resolve_env p : Os.resolve env' p = Os.resolve env p.
Proof. unfold Os.resolve. now rewrite same_cwd. Qed.

Lemma in_step_bind {A B : Type} (R : A -> A -> Prop) (R2 : B -> B -> Prop)
      (m m' : M A) (k k' : A -> M B) :
  in_step R exempt env env' m m' ->
  (forall a a', R a a' -> in_step R2 exempt env env' (k a) (k' a')) ->
  in_step R2 exempt env env' (bind m k) (bind m' k').
Proof.
  intros Hm Hk fs fs' Hs. destruct (Hm fs fs' Hs) as [Ho Hs2].
  unfold bind.
  destruct (m env fs) as [[a|e] s], (m' env' fs') as [[a'|e'] s'];
    simpl in Ho, Hs2; try contradiction.
  - now apply Hk.
  - now split.
Qed.

(** A step that only reads the environment, and not its command line,
    gives both runs the same value. *)
Lemma in_step_bind_known {A B : Type} (R2 : B -> B -> Prop)
      (m : M A) (k k' : A -> M B) :
  readonly m ->
  (forall fs, m env' fs = m env fs) ->
  (forall a,
      (forall fs, m env fs = (Ok a, fs)) ->
      in_step R2 exempt env env' (k a) (k' a)) ->
  in_step R2 exempt env env' (bind m k) (bind m k').
Proof.
  intros Hm He Hk fs fs' Hs. unfold bind. rewrite (He fs').
  destruct (m env fs) as [r s] eqn:E.
  apply (readonly_run _ _ _ _ _ Hm) in E as [-> E].
  rewrite (E fs'). destruct r as [a|e].
  - now apply Hk.
  - now split.
Qed.

Lemma in_step_write path content content' :
  content' = content \/ exempt = Some (Os.resolve env path) ->
  in_step eq exempt env env'
          (Os.write_file path content) (Os.write_file path content').
Proof.
  intros Hc fs fs' (D & Fi & Fc). unfold Os.write_file, Os.is_dir.
  rewrite resolve_env, D.
  destruct (String.eqb path EmptyString); [now repeat split |].
  destruct (bool_decide (Os.resolve env path ∈ dirs fs));
    [now repeat split |].
  destruct (bool_decide (Os.dirname (Os.resolve env path) ∈ dirs fs));
    [| now repeat split].
  simpl. split; [reflexivity |]. split; [reflexivity |]. split.
  - intros p. unfold Os.is_file. simpl.
    destruct (decide (p = Os.resolve env path)) as [->|Hne].
    + rewrite !lookup_insert_eq. apply bool_decide_ext. split; eauto.
    + rewrite !lookup_insert_ne by congruence. apply Fi.
  - intros p Hp. simpl.
    destruct (decide (p = Os.resolve env path)) as [->|Hne].
    + rewrite !lookup_insert_eq. destruct Hc as [->|Hc]; congruence.
    + rewrite !lookup_insert_ne by congruence. now apply Fc.
Qed.

Lemma in_step_path_exists p :
  in_step eq exempt env env' (Os.path_exists p) (Os.path_exists p).
Proof.
  intros fs fs' (D & Fi & Fc). unfold Os.path_exists, Os.is_dir.
  rewrite resolve_env, D, Fi.
  destruct (String.eqb p EmptyString); now repeat split.
Qed.

Lemma in_step_makedirs_settings :
  in_step eq exempt env env'
          (Os.makedirs ".settings") (Os.makedirs ".settings").
Proof.
  intros fs fs' (D & Fi & Fc).
  change (Os.makedirs ".settings" env fs) with (Os.mkdir ".settings" env fs).
  change (Os.makedirs ".settings" env' fs')
    with (Os.mkdir ".settings" env' fs').
  unfold Os.mkdir, Os.is_dir. rewrite resolve_env, D, Fi.
  change (String.eqb ".settings" EmptyString) with false. cbv iota.
  destruct (bool_decide (Os.resolve env ".settings" ∈ dirs fs)
            || Os.is_file fs (Os.resolve env ".settings"));
    [now repeat split |].
  destruct (bool_decide (Os.dirname (Os.resolve env ".settings") ∈ dirs fs));
    [| now repeat split].
  simpl. split; [reflexivity |]. split; [reflexivity |]. now split.
Qed.

Lemma in_step_ret {A : Type} (a : A) :
  in_step eq exempt env env' (ret a) (ret a).
Proof. intros fs fs' Hs. now split. Qed.

Lemma in_step_if {A : Type} (R : A -> A -> Prop) (b : bool)
      (m1 m1' m2 m2' : M A) :
  in_step R exempt env env' m1 m1' ->
  in_step R exempt env env' m2 m2' ->
  in_step R exempt env env' (if b then m1 else m2) (if b then m1' else m2').
Proof. now destruct b. Qed.

(** The command line and what is made of it: both runs get a value, not
    the same one. *)
Lemma in_step_sys_argv :
  in_step (fun _ _ => True) exempt env env' Os.sys_argv Os.sys_argv.
Proof. intros fs fs' Hs. now split. Qed.

Lemma in_step_project_name (av av' : list string) :
  in_step (fun _ _ => True) exempt env env'
          (if 1 <? length av then lift (index av 1)
           else ret "domain-registry")
          (if 1 <? length av' then lift (index av' 1)
           else ret "domain-registry").
Proof.
  intros fs fs' Hs.
  destruct (project_name_ok av env fs) as [n ->].
  destruct (project_name_ok av' env' fs') as [n' ->]. now split.
Qed.

Lemma in_step_build_project (name name' : string) :
  in_step (fun _ _ => True) exempt env env'
          (lift (build_project name)) (lift (build_project name')).
Proof. intros fs fs' Hs. unfold lift. rewrite !build_project_eq. now split. Qed.

End OtherCommandLine.

Lemma project_path_known env ws :
  (forall fs, bazel_info "workspace" env fs = (Ok ws, fs)) ->
  project_path env = Some (Os.resolve env (Py.path_join ws [".project"])).
Proof. intros H. unfold project_path, workspace_of. now rewrite H. Qed.

(** Two runs of [main] whose environments differ in the command line only
    go the same way and leave file systems that differ in the bytes of the
    project file only. *)
Lemma main_in_step env env' :
  cwd env' = cwd env ->
  (forall args, spawn env' args = spawn env args) ->
  in_step eq (project_path env) env env' main main.
Proof.
  intros Hcwd Hsp. unfold main.
  apply in_step_bind_known;
    [apply readonly_build_dependencies
    | now apply build_dependencies_env | intros _ _].
  apply in_step_bind_known;
    [apply readonly_bazel_info | now apply bazel_info_env | intros ws Hw].
  rewrite (project_path_known env ws Hw).
  apply in_step_bind_known;
    [apply readonly_build_classpath
    | now apply build_classpath_env | intros cp _].
  apply (in_step_bind _ _ _ eq);
    [apply (in_step_write _ _ _ Hcwd); now left | intros _ _ _].
  apply (in_step_bind _ _ _ (fun _ _ => True));
    [apply in_step_sys_argv | intros av av' _].
  apply (in_step_bind _ _ _ (fun _ _ => True));
    [apply in_step_project_name | intros name name' _].
  apply (in_step_bind _ _ _ (fun _ _ => True));
    [apply in_step_build_project | intros pj pj' _].
  apply (in_step_bind _ _ _ eq);
    [apply (in_step_write _ _ _ Hcwd); now right | intros _ _ _].
  apply in_step_bind_known;
    [apply readonly_build_factorypath
    | now apply build_factorypath_env | intros fp _].
  apply (in_step_bind _ _ _ eq);
    [apply (in_step_write _ _ _ Hcwd); now left | intros _ _ _].
  apply (in_step_bind _ _ _ eq);
    [apply (in_step_path_exists _ _ _ Hcwd) | intros found found' <-].
  apply (in_step_bind _ _ _ eq);
    [apply in_step_if;
       [apply (in_step_makedirs_settings _ _ _ Hcwd) | apply in_step_ret]
    | intros _ _ _].
  apply (in_step_bind _ _ _ eq);
    [apply (in_step_write _ _ _ Hcwd); now left | intros _ _ _].
  apply (in_step_write _ _ _ Hcwd). now left.
Qed.

(** ** The entry renderers *)

(** C3, as the specification states it, fails for the factorypath
    renderer: the element it returns has four attributes, the two of the
    record and two fixed ones, not two. *)
Lemma factorypath_entry_four_attributes :
  factorypath_entry_xml "PLUGIN" "org.eclipse.jst.ws.annotations.core"
  = Ok (factorypath_element "PLUGIN" "org.eclipse.jst.ws.annotations.core")
  /\ attribute_counts
       (factorypath_element "PLUGIN" "org.eclipse.jst.ws.annotations.core")
     = Some [4]
  /\ attribute_counts
       (factorypath_element "PLUGIN" "org.eclipse.jst.ws.annotations.core")
     <> Some [2].
Proof. repeat split. discriminate. Qed.

(** C3 (amended): each renderer returns its template with the two values of
    the record put in as they are, whatever they hold: for a classpath entry
    an element with the attributes [kind] and [path], for a factorypath
    entry an element with [kind], [id] and the fixed [enabled] and
    [runInBatchMode].  The result holds a line feed only where a value
    holds one, and when the values hold no double quote, [<] or [&] it
    lexes to that single element with the values as attribute values.  The
    entry of kind [con] and path [X] renders to the text the specification
    gives. *)
Theorem entry_renderers (kind value : string) :
  classpath_entry_xml kind value
  = Ok ("<classpathentry kind=" +:+ dq +:+ kind +:+ dq
        +:+ " path=" +:+ dq +:+ value +:+ dq +:+ "/>")
  /\ factorypath_entry_xml kind value
     = Ok ("<factorypathentry kind=" +:+ dq +:+ kind +:+ dq
           +:+ " id=" +:+ dq +:+ value +:+ dq
           +:+ " enabled=" +:+ dq +:+ "true" +:+ dq
           +:+ " runInBatchMode=" +:+ dq +:+ "false" +:+ dq +:+ "/>")
  /\ Text.single_line (classpath_element kind value)
     = Text.single_line kind && Text.single_line value
  /\ Text.single_line (factorypath_element kind value)
     = Text.single_line kind && Text.single_line value
  /\ (Xml.safe kind = true -> Xml.safe value = true ->
      Xml.lex (classpath_element kind value)
      = Some [Xml.Empty "classpathentry" [("kind", kind); ("path", value)]]
      /\ Xml.lex (factorypath_element kind value)
         = Some [Xml.Empty "factorypathentry"
                   [("kind", kind); ("id", value);
                    ("enabled", "true"); ("runInBatchMode", "false")]])
  /\ classpath_entry_xml "con" "X"
     = Ok ("<classpathentry kind=" +:+ dq +:+ "con" +:+ dq
           +:+ " path=" +:+ dq +:+ "X" +:+ dq +:+ "/>").
Proof.
  split; [apply classpath_entry_xml_eq |].
  split; [apply factorypath_entry_xml_eq |].
  split; [apply single_line_classpath_element |].
  split; [apply single_line_factorypath_element |].
  split; [|reflexivity].
  intros Hk Hv. split.
  - now apply lex_classpath_element.
  - now apply lex_factorypath_element.
Qed.

Lemma entry_renderers_witness :
  Xml.safe "con" = true /\ Xml.safe "X" = true
  /\ Xml.lex (classpath_element "con" "X")
     = Some [Xml.Empty "classpathentry" [("kind", "con"); ("path", "X")]]
  /\ Xml.lex (factorypath_element "con" "X")
     = Some [Xml.Empty "factorypathentry"
               [("kind", "con"); ("id", "X");
                ("enabled", "true"); ("runInBatchMode", "false")]].
Proof.
  split; [reflexivity |]. split; [reflexivity |].
  apply (entry_renderers "con" "X"); reflexivity.
Defined.

(** ** The document assemblers *)

(** C4, as the specification states it, fails for [factorypath_xml]: its
    envelope is the pair of [factorypath] tags and holds no XML version
    header. *)
Lemma factorypath_xml_no_header :
  factorypath_xml
    [FactorypathEntry.Build "PLUGIN" "org.eclipse.jst.ws.annotations.core"]
  = Ok ("<factorypath>" +:+ nl
        +:+ "  " +:+ factorypath_element
                       "PLUGIN" "org.eclipse.jst.ws.annotations.core"
        +:+ nl +:+ "</factorypath>")
  /\ Text.contains "<?xml"
       ("<factorypath>" +:+ nl
        +:+ "  " +:+ factorypath_element
                       "PLUGIN" "org.eclipse.jst.ws.annotations.core"
        +:+ nl +:+ "</factorypath>")
     = false.
Proof. split; reflexivity. Qed.

(** C4 (amended): both assemblers render every entry, put two spaces
    before it, join the lines with line feeds and wrap them in a fixed
    envelope.  The envelope of [classpath_xml] starts with the XML version
    header; the envelope of [factorypath_xml] is the pair of [factorypath]
    tags and has no header. *)
Theorem assemblers_join_and_wrap
        (ces : list ClasspathEntry.t) (fes : list FactorypathEntry.t) :
  classpath_xml ces
  = Ok ("<?xml version=" +:+ dq +:+ "1.0" +:+ dq
        +:+ " encoding=" +:+ dq +:+ "UTF-8" +:+ dq +:+ "?>" +:+ nl
        +:+ "<classpath>" +:+ nl
        +:+ Py.join nl
              (map (fun e =>
                      "  " +:+ classpath_element (ClasspathEntry.kind e)
                                                 (ClasspathEntry.path e))
                   ces)
        +:+ nl +:+ "</classpath>")
  /\ factorypath_xml fes
     = Ok ("<factorypath>" +:+ nl
           +:+ Py.join nl
                 (map (fun e =>
                         "  " +:+ factorypath_element
                                    (FactorypathEntry.kind e)
                                    (FactorypathEntry.entry_id e))
                      fes)
           +:+ nl +:+ "</factorypath>")
  /\ (forall e,
        classpath_entry_xml (ClasspathEntry.kind e) (ClasspathEntry.path e)
        = Ok (classpath_element (ClasspathEntry.kind e)
                                (ClasspathEntry.path e)))
  /\ (forall e,
        factorypath_entry_xml (FactorypathEntry.kind e)
                              (FactorypathEntry.entry_id e)
        = Ok (factorypath_element (FactorypathEntry.kind e)
                                  (FactorypathEntry.entry_id e))).
Proof.
  split; [apply classpath_xml_eq |].
  split; [apply factorypath_xml_eq |].
  split; intros e;
    [apply classpath_entry_xml_eq | apply factorypath_entry_xml_eq].
Qed.

(** C2, as the specification states it, fails: values are not escaped, so
    one record whose path closes its element and opens another yields the
    very document of two records, which holds two entry elements. *)
Lemma one_record_two_elements :
  classpath_xml [ClasspathEntry.Build "src" injected_path]
  = classpath_xml [ClasspathEntry.Build "src" "java";
                   ClasspathEntry.Build "src" "javatests"]
  /\ rmap (element_count "classpathentry")
          (classpath_xml [ClasspathEntry.Build "src" injected_path])
     = Ok (Some 2)
  /\ length [ClasspathEntry.Build "src" injected_path] = 1.
Proof. repeat split. Qed.

(** C2 (amended): for entries whose values hold no double quote, [<] or
    [&], the document lexes to the envelope around one element per entry,
    in order: each element comes after a line feed and two spaces, a single
    line feed stands before the closing tag (two when there is no entry),
    there is exactly one opening and one closing envelope tag, and the
    document is well formed. *)
Theorem documents_of_safe_entries
        (ces : list ClasspathEntry.t) (fes : list FactorypathEntry.t) :
  forallb classpath_safe ces = true ->
  forallb factorypath_safe fes = true ->
  (exists doc,
      classpath_xml ces = Ok doc
      /\ Xml.lex doc
         = Some ([ Xml.Decl ("xml version=" +:+ dq +:+ "1.0" +:+ dq
                             +:+ " encoding=" +:+ dq +:+ "UTF-8" +:+ dq);
                   Xml.Chars nl;
                   Xml.Open "classpath" [] ]
                 ++ flat_map
                      (fun e =>
                         [ Xml.Chars (nl +:+ "  ");
                           Xml.Empty "classpathentry"
                             [("kind", ClasspathEntry.kind e);
                              ("path", ClasspathEntry.path e)] ])
                      ces
                 ++ [ Xml.Chars (closing_chars ces);
                      Xml.Close "classpath" ])
      /\ element_count "classpathentry" doc = Some (length ces)
      /\ element_count "classpath" doc = Some 1
      /\ option_map (Xml.closings "classpath") (Xml.lex doc) = Some 1
      /\ Xml.well_formed doc = true)
  /\ (exists doc,
         factorypath_xml fes = Ok doc
         /\ Xml.lex doc
            = Some ([ Xml.Open "factorypath" [] ]
                    ++ flat_map
                         (fun e =>
                            [ Xml.Chars (nl +:+ "  ");
                              Xml.Empty "factorypathentry"
                                [("kind", FactorypathEntry.kind e);
                                 ("id", FactorypathEntry.entry_id e);
                                 ("enabled", "true");
                                 ("runInBatchMode", "false")] ])
                         fes
                    ++ [ Xml.Chars (closing_chars fes);
                         Xml.Close "factorypath" ])
         /\ element_count "factorypathentry" doc = Some (length fes)
         /\ element_count "factorypath" doc = Some 1
         /\ option_map (Xml.closings "factorypath") (Xml.lex doc) = Some 1
         /\ Xml.well_formed doc = true).
Proof.
  intros Hc Hf. split.
  - eexists. split; [apply classpath_xml_eq |].
    unfold element_count, Xml.well_formed.
    rewrite (lex_classpath_document ces Hc).
    split; [reflexivity |].
    unfold classpath_tokens. cbn [option_map].
    split; [|split; [|split]].
    + cbn [app Xml.elements]. change (String.eqb "classpath" "classpathentry")
        with false. cbv iota.
      rewrite elements_body. simpl. now rewrite app_nil_r, length_map.
    + cbn [app Xml.elements]. change (String.eqb "classpath" "classpath")
        with true. cbv iota.
      rewrite elements_body. reflexivity.
    + cbn [app Xml.closings]. rewrite closings_body. reflexivity.
    + cbn [app]. cbn [Xml.nested Xml.all_blank Xml.distinct_names].
      change (Xml.blank "010") with true. cbn [andb negb nl String.append].
      rewrite nested_body by reflexivity.
      destruct ces; reflexivity.
  - eexists. split; [apply factorypath_xml_eq |].
    unfold element_count, Xml.well_formed.
    rewrite (lex_factorypath_document fes Hf).
    split; [reflexivity |].
    unfold factorypath_tokens. cbn [option_map].
    split; [|split; [|split]].
    + cbn [app Xml.elements].
      change (String.eqb "factorypath" "factorypathentry") with false.
      cbv iota.
      rewrite elements_body. simpl. now rewrite app_nil_r, length_map.
    + cbn [app Xml.elements]. change (String.eqb "factorypath" "factorypath")
        with true. cbv iota.
      rewrite elements_body. reflexivity.
    + cbn [app Xml.closings]. rewrite closings_body. reflexivity.
    + cbn [app]. cbn [Xml.nested Xml.distinct_names andb negb].
      rewrite nested_body by reflexivity.
      destruct fes; reflexivity.
Qed.

Lemma documents_of_safe_entries_witness :
  forallb classpath_safe sample_classpath = true
  /\ forallb factorypath_safe sample_factorypath = true
  /\ (exists doc,
         classpath_xml sample_classpath = Ok doc
         /\ element_count "classpathentry" doc = Some 3
         /\ Xml.well_formed doc = true)
  /\ (exists doc,
         factorypath_xml sample_factorypath = Ok doc
         /\ element_count "factorypathentry" doc = Some 1
         /\ Xml.well_formed doc = true).
Proof.
  split; [reflexivity |]. split; [reflexivity |].
  destruct (documents_of_safe_entries sample_classpath sample_factorypath
              eq_refl eq_refl)
    as [(c & Hc & _ & Nc & _ & _ & Wc) (f & Hf & _ & Nf & _ & _ & Wf)].
  split; [exists c | exists f]; repeat split; assumption.
Defined.

(** C9, as the specification states it, fails: between the two envelope
    tags of the document of the empty list stand two line feeds, which is
    neither the empty string nor a single line feed, and neither of them
    comes from the join, which yields the empty string for the empty
    list. *)
Lemma empty_body_two_line_feeds :
  rmap (Text.between "<classpath>" "</classpath>") (classpath_xml [])
  = Ok (Some (nl +:+ nl))
  /\ rmap (Text.between "<factorypath>" "</factorypath>") (factorypath_xml [])
     = Ok (Some (nl +:+ nl))
  /\ nl +:+ nl <> EmptyString
  /\ nl +:+ nl <> nl
  /\ Py.join nl (map classpath_line []) = EmptyString
  /\ Py.join nl (map factorypath_line []) = EmptyString.
Proof. repeat split; discriminate. Qed.

(** C9 (amended): the body of a document, which the assembler puts between
    the two parts of its envelope, is the join of the entry lines; for the
    empty list it is the empty string, without any line feed, so the
    document is the line of the opening tag, an empty line and the closing
    tag.  It is well formed and holds no entry element, and the text
    between the two tags is exactly two line feeds: the one that ends the
    line of the opening tag and the one before the closing tag, both from
    the envelope. *)
Theorem empty_entry_list :
  (forall ces,
      classpath_xml ces
      = Ok (xml_header +:+ nl +:+ "<classpath>" +:+ nl
            +:+ Py.join nl (map classpath_line ces)
            +:+ nl +:+ "</classpath>"))
  /\ (forall fes,
        factorypath_xml fes
        = Ok ("<factorypath>" +:+ nl
              +:+ Py.join nl (map factorypath_line fes)
              +:+ nl +:+ "</factorypath>"))
  /\ Py.join nl (map classpath_line []) = EmptyString
  /\ Py.join nl (map factorypath_line []) = EmptyString
  /\ classpath_xml []
     = Ok (xml_header +:+ nl +:+ "<classpath>" +:+ nl
           +:+ EmptyString +:+ nl +:+ "</classpath>")
  /\ factorypath_xml []
     = Ok ("<factorypath>" +:+ nl +:+ EmptyString +:+ nl +:+ "</factorypath>")
  /\ rmap Xml.well_formed (classpath_xml []) = Ok true
  /\ rmap Xml.well_formed (factorypath_xml []) = Ok true
  /\ rmap (element_count "classpathentry") (classpath_xml []) = Ok (Some 0)
  /\ rmap (element_count "factorypathentry") (factorypath_xml [])
     = Ok (Some 0)
  /\ rmap (Text.between "<classpath>" "</classpath>") (classpath_xml [])
     = Ok (Some (nl +:+ nl))
  /\ rmap (Text.between "<factorypath>" "</factorypath>") (factorypath_xml [])
     = Ok (Some (nl +:+ nl)).
Proof.
  split; [apply classpath_xml_eq |].
  split; [apply factorypath_xml_eq |].
  repeat split.
Qed.

(** ** The project file *)

Lemma build_project_contains (name : string) :
  exists doc,
    build_project name = Ok doc
    /\ Text.contains ("<name>" +:+ name +:+ "</name>") doc = true.
Proof.
  eexists. split; [apply build_project_eq |].
  pose proof
    (contains_middle
       ("<name>" +:+ name +:+ "</name>")
       (xml_header +:+ nl +:+ "<projectDescription>" +:+ nl +:+ "    ")
       (String.substring 7 (String.length project_tail) project_tail))
    as H.
  rewrite !append_assoc in H. exact H.
Qed.

(** C7: the project file is the template with the name put in at its one
    field, between [<name>] and [</name>]: two names give documents that
    differ there only. *)
Theorem build_project_substitution :
  (exists before after,
      forall name,
        build_project name
        = Ok (before +:+ "<name>" +:+ name +:+ "</name>" +:+ after))
  /\ (forall name,
        exists doc,
          build_project name = Ok doc
          /\ Text.contains ("<name>" +:+ name +:+ "</name>") doc = true)
  /\ rmap (Text.contains "<name>foo</name>") (build_project "foo") = Ok true.
Proof.
  split; [|split].
  - exists (xml_header +:+ nl +:+ "<projectDescription>" +:+ nl +:+ "    ").
    exists (String.substring 7 (String.length project_tail) project_tail).
    intros name. reflexivity.
  - apply build_project_contains.
  - reflexivity.
Qed.

(** ** The build-tool query *)

(** C1, as the specification states it, fails: [bazel_info] returns the
    first line stripped even when nothing is left of it, and never looks at
    a later line.  Here the build tool prints a blank line and then the
    workspace. *)
Lemma bazel_info_blank_first_line :
  spawn env_blank ["bazel"; "info"; "workspace"]
  = Some (nl +:+ "/ws" +:+ nl, 0%Z)
  /\ first_nonempty_line (nl +:+ "/ws" +:+ nl) = Some "/ws"
  /\ bazel_info "workspace" env_blank fs0 = (Ok EmptyString, fs0).
Proof. repeat split. Qed.

(** C1 (amended): when the info command writes something on its standard
    output, [bazel_info] cuts the output into lines, strips each and
    returns the first one, be it empty or not; the file system is left as
    it is. *)
Theorem bazel_info_first_line env fs key out status :
  spawn env ["bazel"; "info"; key] = Some (out, status) ->
  out <> EmptyString ->
  exists line rest,
    Py.iter_readline out = line :: rest
    /\ fold_right String.append EmptyString (line :: rest) = out
    /\ bazel_info key env fs = (Ok (Py.strip line), fs).
Proof.
  intros Hs Hout. destruct out as [|c out]; [congruence |].
  exists (fst (Py.readline (String c out))),
         (Py.iter_readline (snd (Py.readline (String c out)))).
  split; [apply iter_readline_nonempty |].
  split; [rewrite <- iter_readline_nonempty; apply iter_readline_concat |].
  unfold bazel_info, bind, Os.popen_stdout. rewrite Hs.
  rewrite iter_readline_nonempty. reflexivity.
Qed.

Lemma bazel_info_first_line_witness :
  spawn env0 ["bazel"; "info"; "workspace"] = Some ("/ws" +:+ nl, 0%Z)
  /\ "/ws" +:+ nl <> EmptyString
  /\ exists line rest,
       Py.iter_readline ("/ws" +:+ nl) = line :: rest
       /\ fold_right String.append EmptyString (line :: rest) = "/ws" +:+ nl
       /\ bazel_info "workspace" env0 fs0 = (Ok (Py.strip line), fs0).
Proof.
  split; [reflexivity |]. split; [discriminate |].
  apply (bazel_info_first_line env0 fs0 "workspace" ("/ws" +:+ nl) 0%Z);
    [reflexivity | discriminate].
Defined.

(** C8: when the info command writes no line, which is when it writes
    nothing at all, the list of lines is empty, taking its first element
    raises [IndexError], and [bazel_info] returns no value. *)
Theorem bazel_info_no_output env fs key out status :
  spawn env ["bazel"; "info"; key] = Some (out, status) ->
  Py.iter_readline out = [] ->
  out = EmptyString /\ bazel_info key env fs = (Raise IndexError, fs).
Proof.
  intros Hs Hout. split; [now apply iter_readline_nil |].
  unfold bazel_info, bind, Os.popen_stdout. rewrite Hs, Hout. reflexivity.
Qed.

Lemma bazel_info_no_output_witness :
  spawn env0 ["bazel"; "info"; "release"] = Some (EmptyString, 2%Z)
  /\ Py.iter_readline EmptyString = []
  /\ bazel_info "release" env0 fs0 = (Raise IndexError, fs0).
Proof.
  split; [reflexivity |]. split; [reflexivity |].
  apply (bazel_info_no_output env0 fs0 "release" EmptyString 2%Z);
    reflexivity.
Defined.

(** ** The orchestrator *)

Lemma project_name_of_argv (sys_argv : list string) :
  project_name_of sys_argv
  = Ok match sys_argv with
       | _ :: name :: _ => name
       | _ => "domain-registry"
       end.
Proof. destruct sys_argv as [|script [|name rest]]; reflexivity. Qed.

Lemma path_exists_settings env fs :
  Os.path_exists ".settings" env fs
  = (Ok (Os.is_dir fs (settings_dir env) || Os.is_file fs (settings_dir env)),
     fs).
Proof. reflexivity. Qed.

Lemma run_files env fs fs1 :
  run env fs fs1 ->
  exists ws cp pj fp,
    (forall s, bazel_info "workspace" env s = (Ok ws, s))
    /\ (forall s, build_classpath env s = (Ok cp, s))
    /\ rbind (project_name_of (argv env)) build_project = Ok pj
    /\ (forall s, build_factorypath env s = (Ok fp, s))
    /\ files fs1 = final_files env ws cp pj fp (files fs)
    /\ dirs fs1 = final_dirs env fs.
Proof.
  intros [ws cp pj fp st_a st_b st_c st_d st_e Hb Hw Hc Hp Hf Wc Wp Wf Hs Wj Wa].
  exists ws, cp, pj, fp. repeat (split; [assumption |]).
  exact (run_final _ _ _ _ _ _ _ _ _ _ _ _ Wc Wp Wf Hs Wj Wa).
Qed.

(** What the five files hold at the end of a run. *)
Lemma final_files_lookup env ws cp pj fp m :
  final_files env ws cp pj fp m !! Os.resolve env (classpath_file ws) = Some cp
  /\ final_files env ws cp pj fp m !! Os.resolve env (project_file ws)
     = Some pj
  /\ final_files env ws cp pj fp m !! Os.resolve env (factorypath_file ws)
     = Some fp
  /\ final_files env ws cp pj fp m !! Os.resolve env (jdt_prefs_file ws)
     = Some jdt_prefs
  /\ final_files env ws cp pj fp m !! Os.resolve env (apt_prefs_file ws)
     = Some apt_prefs.
Proof.
  destruct (output_files_ne env ws)
    as (N12 & N13 & N14 & N15 & N23 & N24 & N25 & N34 & N35 & N45).
  unfold final_files.
  repeat split;
    rewrite ?lookup_insert_ne by congruence; apply lookup_insert_eq.
Qed.

(** C5: a second run of [main], with the same command line and the same
    answers of the build tool, from the file system the first run left,
    ends as the first one did and leaves every file and directory as it
    found them; this holds of every first run, be there a [.settings]
    directory before it or not, and whether it ended well or raised.
    When the first run ended well, something called [.settings] exists
    after it, so the second run does not try to create it, and the five
    files [main] writes exist: they hold the same bytes after both runs. *)
Theorem main_idempotent env fs r fs1 :
  main env fs = (r, fs1) ->
  main env fs1 = (r, fs1)
  /\ (r = Ok tt ->
      Os.path_exists ".settings" env fs1 = (Ok true, fs1)
      /\ exists ws,
           (forall s, bazel_info "workspace" env s = (Ok ws, s))
           /\ Forall (fun f => is_Some (files fs1 !! Os.resolve env f))
                [ Py.path_join ws [".classpath"];
                  Py.path_join ws [".project"];
                  Py.path_join ws [".factorypath"];
                  Py.path_join ws [".settings"; "org.eclipse.jdt.core.prefs"];
                  Py.path_join ws
                    [".settings"; "org.eclipse.jdt.apt.core.prefs"] ]).
Proof.
  intros H. split; [exact (main_again env fs r fs1 H) |].
  intros ->. apply main_run in H. split.
  - rewrite path_exists_settings. now rewrite (run_settings _ _ _ H).
  - destruct (run_files _ _ _ H) as (ws & cp & pj & fp & Hw & _ & _ & _ & F & _).
    exists ws. split; [exact Hw |].
    destruct (final_files_lookup env ws cp pj fp (files fs))
      as (L1 & L2 & L3 & L4 & L5).
    rewrite F.
    repeat constructor; eexists; eassumption.
Qed.

Lemma main_idempotent_witness :
  main env0 fs0 = (Ok tt, after env0 fs0)
  /\ main env0 (after env0 fs0) = (Ok tt, after env0 fs0)
  /\ Os.path_exists ".settings" env0 (after env0 fs0)
     = (Ok true, after env0 fs0).
Proof.
  assert (main env0 fs0 = (Ok tt, after env0 fs0)) as H
      by (vm_compute; reflexivity).
  split; [exact H |].
  destruct (main_idempotent env0 fs0 (Ok tt) (after env0 fs0) H) as (R & E).
  split; [exact R |]. now destruct (E eq_refl).
Defined.

(** C6: the project is named by the first command-line argument when there
    is one and [domain-registry] otherwise, and the [.project] file of the
    workspace holds the project document of that name. *)
Theorem main_project_name env fs fs1 :
  main env fs = (Ok tt, fs1) ->
  exists ws doc,
    (forall s, bazel_info "workspace" env s = (Ok ws, s))
    /\ files fs1 !! Os.resolve env (Py.path_join ws [".project"]) = Some doc
    /\ (length (argv env) <= 1 ->
        build_project "domain-registry" = Ok doc
        /\ Text.contains "<name>domain-registry</name>" doc = true)
    /\ (forall script name rest,
          argv env = script :: name :: rest ->
          build_project name = Ok doc
          /\ Text.contains ("<name>" +:+ name +:+ "</name>") doc = true).
Proof.
  intros H. apply main_run in H.
  destruct (run_files _ _ _ H) as (ws & cp & pj & fp & Hw & _ & Hp & _ & F & _).
  exists ws, pj. split; [exact Hw |].
  destruct (final_files_lookup env ws cp pj fp (files fs))
    as (_ & L2 & _).
  split; [rewrite F; exact L2 |].
  rewrite project_name_of_argv in Hp. simpl in Hp.
  pose proof build_project_contains as Hc.
  split.
  - intros Hlen.
    destruct (argv env) as [|script [|name rest]]; simpl in Hlen; try lia.
    + split; [exact Hp |].
      destruct (Hc "domain-registry") as (doc & Hd & Hcon).
      rewrite Hp in Hd. injection Hd as ->. exact Hcon.
    + split; [exact Hp |].
      destruct (Hc "domain-registry") as (doc & Hd & Hcon).
      rewrite Hp in Hd. injection Hd as ->. exact Hcon.
  - intros script name rest Hargv. rewrite Hargv in Hp.
    split; [exact Hp |].
    destruct (Hc name) as (doc & Hd & Hcon).
    rewrite Hp in Hd. injection Hd as ->. exact Hcon.
Qed.

Lemma main_project_name_witness :
  main env0 fs0 = (Ok tt, after env0 fs0)
  /\ main env_named fs0 = (Ok tt, after env_named fs0)
  /\ (exists doc,
         files (after env0 fs0) !! "/ws/.project" = Some doc
         /\ Text.contains "<name>domain-registry</name>" doc = true)
  /\ (exists doc,
         files (after env_named fs0) !! "/ws/.project" = Some doc
         /\ Text.contains "<name>nomulus</name>" doc = true).
Proof.
  assert (main env0 fs0 = (Ok tt, after env0 fs0)) as H0
      by (vm_compute; reflexivity).
  assert (main env_named fs0 = (Ok tt, after env_named fs0)) as H1
      by (vm_compute; reflexivity).
  split; [exact H0 |]. split; [exact H1 |]. split.
  - destruct (main_project_name env0 fs0 _ H0) as (ws & doc & Hw & Hf & Hd & _).
    specialize (Hw fs0). vm_compute in Hw. injection Hw as <-.
    exists doc. split; [exact Hf |].
    apply Hd. simpl. lia.
  - destruct (main_project_name env_named fs0 _ H1)
      as (ws & doc & Hw & Hf & _ & Hn).
    specialize (Hw fs0). vm_compute in Hw. injection Hw as <-.
    exists doc. split; [exact Hf |].
    apply (Hn "setup_eclipse.py" "nomulus" []). reflexivity.
Defined.

(** C10: two runs of [main] from the same file system, with the same
    current directory and the same answers of the build tool and any two
    command lines, end the same way, well or with the same exception, and
    leave the same directories and the same bytes in every file but the
    [.project] file of the workspace.  When they end well, [.classpath],
    [.factorypath] and the two preference files exist and hold the same
    bytes after both. *)
Theorem project_name_reaches_project_only env env' fs r r' fs1 fs1' :
  cwd env' = cwd env ->
  (forall args, spawn env' args = spawn env args) ->
  main env fs = (r, fs1) ->
  main env' fs = (r', fs1') ->
  r' = r
  /\ dirs fs1' = dirs fs1
  /\ (forall p,
        (forall ws,
            bazel_info "workspace" env fs = (Ok ws, fs) ->
            p <> Os.resolve env (Py.path_join ws [".project"])) ->
        files fs1' !! p = files fs1 !! p)
  /\ (r = Ok tt ->
      exists ws,
        bazel_info "workspace" env fs = (Ok ws, fs)
        /\ Forall (fun f =>
                     files fs1' !! Os.resolve env f
                     = files fs1 !! Os.resolve env f
                     /\ is_Some (files fs1 !! Os.resolve env f))
             [ Py.path_join ws [".classpath"];
               Py.path_join ws [".factorypath"];
               Py.path_join ws [".settings"; "org.eclipse.jdt.core.prefs"];
               Py.path_join ws
                 [".settings"; "org.eclipse.jdt.apt.core.prefs"] ]).
Proof.
  intros Hcwd Hsp H H'.
  destruct (main_in_step env env' Hcwd Hsp fs fs (same_but_refl _ _))
    as [Ho (D & _ & Fc)].
  rewrite H, H' in Ho, D, Fc. simpl in Ho, D, Fc.
  assert (forall p,
             (forall ws,
                 bazel_info "workspace" env fs = (Ok ws, fs) ->
                 p <> Os.resolve env (Py.path_join ws [".project"])) ->
             files fs1' !! p = files fs1 !! p) as Helse.
  { intros p Hp. apply Fc. unfold project_path, workspace_of.
    destruct (bazel_info "workspace" env {| files := ∅; dirs := ∅ |})
      as [[ws|e] s] eqn:E; [|discriminate].
    apply (readonly_run _ _ _ _ _ (readonly_bazel_info _)) in E as [_ E].
    simpl. intros [= <-]. now apply (Hp ws). }
  split; [now apply outcomes_eq |]. split; [exact D |].
  split; [exact Helse |].
  intros ->. apply main_run in H.
  destruct (run_files _ _ _ H)
    as (ws & cp & pj & fp & Hw & _ & _ & _ & F & _).
  exists ws. split; [apply Hw |].
  destruct (output_files_ne env ws)
    as (N12 & N13 & N14 & N15 & N23 & N24 & N25 & N34 & N35 & N45).
  destruct (final_files_lookup env ws cp pj fp (files fs))
    as (L1 & L2 & L3 & L4 & L5).
  assert (forall p, p <> Os.resolve env (project_file ws) ->
                    files fs1' !! p = files fs1 !! p) as Hws.
  { intros p Hp. apply Helse. intros ws' E.
    rewrite (Hw fs) in E. injection E as <-. exact Hp. }
  change (Py.path_join ws [".classpath"]) with (classpath_file ws).
  change (Py.path_join ws [".factorypath"]) with (factorypath_file ws).
  change (Py.path_join ws [".settings"; "org.eclipse.jdt.core.prefs"])
    with (jdt_prefs_file ws).
  change (Py.path_join ws [".settings"; "org.eclipse.jdt.apt.core.prefs"])
    with (apt_prefs_file ws).
  rewrite F.
  repeat (constructor;
          [split; [rewrite <- F; apply Hws; congruence | eauto] |]).
  constructor.
Qed.

Lemma project_name_reaches_project_only_witness :
  cwd env_named = cwd env0
  /\ (forall args, spawn env_named args = spawn env0 args)
  /\ main env0 fs0 = (Ok tt, after env0 fs0)
  /\ main env_named fs0 = (Ok tt, after env_named fs0)
  /\ dirs (after env_named fs0) = dirs (after env0 fs0)
  /\ (forall p,
        p <> "/ws/.project" ->
        files (after env_named fs0) !! p = files (after env0 fs0) !! p)
  /\ files (after env_named fs0) !! "/ws/.project"
     <> files (after env0 fs0) !! "/ws/.project".
Proof.
  assert (main env0 fs0 = (Ok tt, after env0 fs0)) as H0
      by (vm_compute; reflexivity).
  assert (main env_named fs0 = (Ok tt, after env_named fs0)) as H1
      by (vm_compute; reflexivity).
  split; [reflexivity |]. split; [reflexivity |].
  split; [exact H0 |]. split; [exact H1 |].
  destruct (project_name_reaches_project_only
              env0 env_named fs0 _ _ _ _ eq_refl (fun _ => eq_refl) H0 H1)
    as (_ & Hd & Helse & _).
  split; [exact Hd |]. split.
  - intros p Hp. apply Helse. intros ws E.
    vm_compute in E. injection E as <-. exact Hp.
  - vm_compute. discriminate.
Defined.

(** ** White space and lines *)

Lemma rstrip_cons (c : ascii) (s : string) :
  Py.rstrip (String c s)
  = match Py.rstrip s with
    | EmptyString => if Py.isspace c then EmptyString else String c EmptyString
    | String c' r => String c (String c' r)
    end.
Proof. reflexivity. Qed.

Lemma rstrip_idempotent (s : string) : Py.rstrip (Py.rstrip s) = Py.rstrip s.
Proof.
  induction s as [|c s IH]; [reflexivity |].
  rewrite rstrip_cons. destruct (Py.rstrip s) as [|c' r] eqn:E.
  - destruct (Py.isspace c) eqn:Ec; [reflexivity |].
    rewrite rstrip_cons. cbn [Py.rstrip]. now rewrite Ec.
  - rewrite rstrip_cons, IH. reflexivity.
Qed.

Lemma rstrip_head (c : ascii) (s : string) :
  Py.isspace c = false ->
  exists r, Py.rstrip (String c s) = String c r.
Proof.
  intros Hc. cbn [Py.rstrip]. destruct (Py.rstrip s) as [|c' r].
  - rewrite Hc. now exists EmptyString.
  - now exists (String c' r).
Qed.

Lemma lstrip_head (s : string) :
  match Py.lstrip s with
  | EmptyString => True
  | String c _ => Py.isspace c = false
  end.
Proof.
  induction s as [|c s IH]; [exact I |].
  cbn [Py.lstrip]. destruct (Py.isspace c) eqn:E; [exact IH | exact E].
Qed.

Lemma strip_idempotent (s : string) : Py.strip (Py.strip s) = Py.strip s.
Proof.
  unfold Py.strip. pose proof (lstrip_head s) as H.
  destruct (Py.lstrip s) as [|c t]; [reflexivity |].
  destruct (rstrip_head c t H) as [r E]. rewrite E.
  cbn [Py.lstrip]. rewrite H. rewrite <- E. apply rstrip_idempotent.
Qed.

Lemma rstrip_all_space (w : string) :
  all_space w = true -> Py.rstrip w = EmptyString.
Proof.
  induction w as [|c w IH]; [reflexivity |].
  cbn [all_space]. intros H. apply andb_true_iff in H as [Hc Hw].
  cbn [Py.rstrip]. now rewrite (IH Hw), Hc.
Qed.

Lemma rstrip_append_space (s w : string) :
  all_space w = true -> Py.rstrip (s +:+ w) = Py.rstrip s.
Proof.
  intros Hw. induction s as [|c s IH]; [now apply rstrip_all_space |].
  change (String c s +:+ w) with (String c (s +:+ w)).
  cbn [Py.rstrip]. now rewrite IH.
Qed.

Lemma lstrip_all_space (w : string) :
  all_space w = true -> Py.lstrip w = EmptyString.
Proof.
  induction w as [|c w IH]; [reflexivity |].
  cbn [all_space]. intros H. apply andb_true_iff in H as [Hc Hw].
  cbn [Py.lstrip]. now rewrite Hc, (IH Hw).
Qed.

(** What [lstrip] removes is white space, and so is what [rstrip]
    removes. *)
Lemma lstrip_cut (s : string) :
  exists pre, s = pre +:+ Py.lstrip s /\ all_space pre = true.
Proof.
  induction s as [|c s (pre & E & Hp)]; [now exists EmptyString |].
  cbn [Py.lstrip]. destruct (Py.isspace c) eqn:Ec.
  - exists (String c pre). split.
    + change (String c pre +:+ Py.lstrip s) with (String c (pre +:+ Py.lstrip s)).
      now rewrite <- E.
    + cbn [all_space]. now rewrite Ec, Hp.
  - now exists EmptyString.
Qed.

Lemma rstrip_cut (s : string) :
  exists post, s = Py.rstrip s +:+ post /\ all_space post = true.
Proof.
  induction s as [|c s (post & E & Hp)]; [now exists EmptyString |].
  cbn [Py.rstrip]. destruct (Py.rstrip s) as [|c' r] eqn:Er.
  - destruct (Py.isspace c) eqn:Ec.
    + exists (String c post). split.
      * simpl in E. now rewrite <- E.
      * cbn [all_space]. now rewrite Ec, Hp.
    + exists post. split; [|exact Hp].
      simpl in E. simpl. now rewrite <- E.
  - exists post. split; [|exact Hp].
    change (String c (String c' r) +:+ post)
      with (String c (String c' r +:+ post)).
    now rewrite <- E.
Qed.

Lemma has_char_lstrip (c : ascii) (s : string) :
  Text.has_char c s = false -> Text.has_char c (Py.lstrip s) = false.
Proof.
  induction s as [|c' s IH]; [reflexivity |].
  intros H. cbn [Py.lstrip]. destruct (Py.isspace c'); [|exact H].
  cbn [Text.has_char] in H. apply orb_false_elim in H as [_ H]. now apply IH.
Qed.

Lemma has_char_rstrip (c : ascii) (s : string) :
  Text.has_char c s = false -> Text.has_char c (Py.rstrip s) = false.
Proof.
  induction s as [|c' s IH]; [reflexivity |].
  cbn [Text.has_char]. intros H. apply orb_false_elim in H as [Hc H].
  specialize (IH H). cbn [Py.rstrip].
  destruct (Py.rstrip s) as [|c2 r].
  - destruct (Py.isspace c'); [reflexivity |].
    cbn [Text.has_char]. now rewrite Hc.
  - cbn [Text.has_char] in *. now rewrite Hc, IH.
Qed.

(** A line read by [readline] ends with the first line feed of the
    stream, or is the whole stream when there is none. *)
Lemma readline_line (s : string) :
  exists body,
    Text.has_char "010" body = false
    /\ (Py.readline s = (body, EmptyString)
        \/ exists rest, Py.readline s = (body +:+ nl, rest)).
Proof.
  induction s as [|c s (body & Hb & IH)].
  - exists EmptyString. split; [reflexivity | now left].
  - cbn [Py.readline]. destruct (Ascii.eqb c "010") eqn:Ec.
    + exists EmptyString. split; [reflexivity |]. right. exists s.
      apply Ascii.eqb_eq in Ec. now subst c.
    + exists (String c body). split.
      * cbn [Text.has_char]. now rewrite Ec, Hb.
      * destruct IH as [-> | [rest ->]]; [now left | right; now exists rest].
Qed.

Lemma strip_line_feed (body : string) :
  Py.strip (body +:+ nl) = Py.strip body.
Proof.
  unfold Py.strip.
  destruct (lstrip_cut body) as (pre & E & Hp).
  destruct (Py.lstrip body) as [|c t] eqn:El.
  - rewrite append_nil_r in E. subst pre.
    rewrite lstrip_all_space; [reflexivity |].
    clear El. induction body as [|c b IH]; [reflexivity |].
    cbn [all_space] in Hp. apply andb_true_iff in Hp as [Hc Hb].
    change (String c b +:+ nl) with (String c (b +:+ nl)).
    cbn [all_space]. now rewrite Hc, IH.
  - assert (Py.lstrip (body +:+ nl) = String c t +:+ nl) as ->.
    { clear E Hp. revert El. induction body as [|c' b IH]; [discriminate |].
      change (String c' b +:+ nl) with (String c' (b +:+ nl)).
      cbn [Py.lstrip]. destruct (Py.isspace c').
      - exact IH.
      - intros [= <- <-]. reflexivity. }
    now apply rstrip_append_space.
Qed.

Lemma single_line_strip (body : string) :
  Text.has_char "010" body = false -> Text.single_line (Py.strip body) = true.
Proof.
  intros H. unfold Text.single_line, Py.strip.
  now rewrite has_char_rstrip by now apply has_char_lstrip.
Qed.

Lemma strip_cut (s : string) :
  exists pre post,
    s = pre +:+ Py.strip s +:+ post
    /\ all_space pre = true /\ all_space post = true.
Proof.
  destruct (lstrip_cut s) as (pre & E & Hp).
  destruct (rstrip_cut (Py.lstrip s)) as (post & E2 & Hq).
  exists pre, post. unfold Py.strip. now rewrite <- E2.
Qed.

Lemma readline_single_line (l rest : string) :
  Text.single_line l = true ->
  Py.readline (l +:+ nl +:+ rest) = (l +:+ nl, rest).
Proof.
  unfold Text.single_line. intros H. apply negb_true_iff in H.
  induction l as [|c l IH]; [reflexivity |].
  cbn [Text.has_char] in H. apply orb_false_elim in H as [Hc Hl].
  change (String c l +:+ nl +:+ rest) with (String c (l +:+ nl +:+ rest)).
  cbn [Py.readline]. now rewrite Hc, (IH Hl).
Qed.

Lemma iter_readline_line (l rest : string) :
  Text.single_line l = true ->
  Py.iter_readline (l +:+ nl +:+ rest) = (l +:+ nl) :: Py.iter_readline rest.
Proof.
  intros H. pose proof (readline_single_line l rest H) as E.
  destruct (l +:+ nl +:+ rest) as [|c s] eqn:Es.
  - destruct l; discriminate.
  - now rewrite iter_readline_nonempty, E.
Qed.

Lemma iter_readline_join (ls : list string) (rest : string) :
  Forall (fun l => Text.single_line l = true) ls ->
  ls <> [] ->
  Py.iter_readline (Py.join nl ls +:+ nl +:+ rest)
  = map (fun l => l +:+ nl) ls ++ Py.iter_readline rest.
Proof.
  intros H. induction H as [|l ls Hl Hls IH]; [congruence |]. intros _.
  destruct ls as [|l' ls].
  - cbn [Py.join map app]. now apply iter_readline_line.
  - change (Py.join nl (l :: l' :: ls))
      with (l +:+ nl +:+ Py.join nl (l' :: ls)).
    rewrite !append_assoc. rewrite (iter_readline_line _ _ Hl).
    cbn [map app]. f_equal. apply IH. discriminate.
Qed.

Lemma single_line_classpath_line (e : ClasspathEntry.t) :
  classpath_single_line e = true -> Text.single_line (classpath_line e) = true.
Proof.
  intros H. unfold classpath_line.
  rewrite single_line_append, single_line_classpath_element. exact H.
Qed.

Lemma single_line_factorypath_line (e : FactorypathEntry.t) :
  factorypath_single_line e = true ->
  Text.single_line (factorypath_line e) = true.
Proof.
  intros H. unfold factorypath_line.
  rewrite single_line_append, single_line_factorypath_element. exact H.
Qed.

(** ** The build commands *)

Lemma check_call_ok args env fs :
  Os.check_call args env fs = (Ok tt, fs) <-> built env args.
Proof.
  unfold Os.check_call, built.
  destruct (spawn env args) as [[out st]|].
  - destruct (Z.eqb_spec st 0) as [->|Hne].
    + split; [now exists out | reflexivity].
    + split; [discriminate | intros [o [= _ E]]; congruence].
  - split; [discriminate | intros [o E]; discriminate].
Qed.

Lemma check_call_cases args env fs :
  Os.check_call args env fs = (Ok tt, fs)
  \/ exists e, Os.check_call args env fs = (Raise e, fs)
               /\ (e = CalledProcessError \/ e = OSError).
Proof.
  unfold Os.check_call. destruct (spawn env args) as [[out st]|].
  - destruct (Z.eqb st 0); [now left | right].
    exists CalledProcessError. split; [reflexivity | now left].
  - right. exists OSError. split; [reflexivity | now right].
Qed.

(** [build_dependencies] is its three commands, one after the other. *)
Lemma build_dependencies_eq env fs :
  build_dependencies env fs
  = match build_commands with
    | [c1; c2; c3] =>
        bind (Os.check_call c1)
             (fun _ => bind (Os.check_call c2) (fun _ => Os.check_call c3))
             env fs
    | _ => (Ok tt, fs)
    end.
Proof. reflexivity. Qed.

Lemma build_dependencies_ok env fs :
  build_dependencies env fs = (Ok tt, fs) <-> Forall (built env) build_commands.
Proof.
  rewrite build_dependencies_eq. unfold build_commands, bind.
  rewrite !Forall_cons, Forall_nil, <- !(check_call_ok _ env fs).
  repeat match goal with
         | |- context [Os.check_call ?c env fs] =>
             destruct (check_call_cases c env fs) as [-> | (? & -> & _)]
         end;
    intuition discriminate.
Qed.


(** ** The documents built from the answers of the build tool *)

Lemma safe_append (a b : string) :
  Xml.safe (a +:+ b) = Xml.safe a && Xml.safe b.
Proof.
  induction a as [|c a IH]; [reflexivity |].
  change (String c a +:+ b) with (String c (a +:+ b)).
  cbn [Xml.safe]. now rewrite IH, andb_assoc.
Qed.

Lemma safe_dir_prefix (a : string) :
  Xml.safe a = true -> Xml.safe (dir_prefix a) = true.
Proof.
  intros H. unfold dir_prefix.
  destruct (String.eqb a EmptyString || Py.endswith_slash a); [exact H |].
  now rewrite safe_append, H.
Qed.

Lemma build_classpath_eq env fs :
  build_classpath env fs
  = match bazel_info "bazel-genfiles" env fs with
    | (Ok g, s) => (classpath_xml (classpath_entries g), s)
    | (Raise e, s) => (Raise e, s)
    end.
Proof.
  unfold build_classpath, bind.
  now destruct (bazel_info "bazel-genfiles" env fs) as [[g|e] s].
Qed.

Lemma build_factorypath_eq env fs :
  build_factorypath env fs
  = match bazel_info "bazel-bin" env fs with
    | (Ok b, s) => (factorypath_xml (factorypath_entries b), s)
    | (Raise e, s) => (Raise e, s)
    end.
Proof.
  unfold build_factorypath, bind.
  destruct (bazel_info "bazel-bin" env fs) as [[b|e] s]; [|reflexivity].
  unfold lift, factorypath_entries, Py.path_join. cbn [fold_left].
  now rewrite path_join2_relative by reflexivity.
Qed.

(** ** Names of the output paths *)



Lemma length_append (a b : string) :
  String.length (a +:+ b) = String.length a + String.length b.
Proof. induction a as [|c a IH]; simpl; [reflexivity | now rewrite IH]. Qed.

Lemma last_two_append (d s : string) :
  2 <= String.length s -> last_two (d +:+ s) = last_two s.
Proof.
  intros Hs. induction d as [|c d IH]; [reflexivity |].
  change (String c d +:+ s) with (String c (d +:+ s)).
  cbn [last_two].
  destruct (d +:+ s) as [|a [|b t]] eqn:E; [| |exact IH].
  - apply (f_equal String.length) in E. rewrite length_append in E.
    simpl in E. lia.
  - apply (f_equal String.length) in E. rewrite length_append in E.
    simpl in E. lia.
Qed.

Lemma settings_dir_not_prefs env ws :
  settings_dir env <> Os.resolve env (jdt_prefs_file ws)
  /\ settings_dir env <> Os.resolve env (apt_prefs_file ws).
Proof.
  rewrite settings_dir_eq, resolve_jdt_prefs_file, resolve_apt_prefs_file.
  split; intros H; apply (f_equal last_two) in H;
    rewrite !last_two_append in H by (simpl; lia); discriminate.
Qed.








(** ** What a run changes *)













(** ** A run, step by step *)

Lemma project_name_step (av : list string) env fs :
  (if 1 <? length av then lift (index av 1) else ret "domain-registry") env fs
  = (project_name_of av, fs).
Proof. unfold project_name_of. now destruct (1 <? length av). Qed.

Lemma bind_env {A B : Type} (m m' : M A) (k k' : A -> M B) env env' fs :
  m' env' fs = m env fs ->
  (forall a s, k' a env' s = k a env s) ->
  bind m' k' env' fs = bind m k env fs.
Proof.
  intros Hm Hk. unfold bind. rewrite Hm.
  destruct (m env fs) as [[a|e] s]; [apply Hk | reflexivity].
Qed.

Lemma project_name_of_nth (av : list string) :
  project_name_of av
  = Ok match nth_error av 1 with
       | Some name => name
       | None => "domain-registry"
       end.
Proof. destruct av as [|script [|name rest]]; reflexivity. Qed.

Lemma bind_sys_argv {B : Type} (k : list string -> M B) env fs :
  bind Os.sys_argv k env fs = k (argv env) env fs.
Proof. reflexivity. Qed.





(** ** Character data *)

Lemma lex_text (t : string) :
  text_safe t = true ->
  forall acc out rest,
    Xml.lex_go (Xml.SChars acc) out (t +:+ rest)
    = Xml.lex_go (Xml.SChars (acc +:+ t)) out rest.
Proof.
  induction t as [|c t IH]; intros Ht acc out rest.
  - now rewrite append_nil_r.
  - cbn [text_safe] in Ht. apply andb_true_iff in Ht as [Hc Ht].
    apply negb_true_iff, orb_false_elim in Hc as [H1 H2].
    change (String c t +:+ rest) with (String c (t +:+ rest)).
    cbn [Xml.lex_go]. rewrite H1, H2. rewrite (IH Ht).
    unfold Xml.snoc. now rewrite append_assoc.
Qed.

(** ** Reading documents back *)

Lemma read_all_map {A : Type} (read : list (string * string) -> option A)
      (attrs : A -> list (string * string)) (es : list A) :
  (forall e, read (attrs e) = Some e) ->
  read_all read (map attrs es) = Some es.
Proof.
  intros H. induction es as [|e es IH]; [reflexivity |].
  cbn [map read_all]. now rewrite H, IH.
Qed.

Lemma read_classpath_xml (es : list ClasspathEntry.t) :
  forallb classpath_safe es = true ->
  rmap read_classpath (classpath_xml es) = Ok (Some es).
Proof.
  intros H. rewrite classpath_xml_eq. cbn [rmap rbind]. f_equal.
  unfold read_classpath. rewrite (lex_classpath_document es H).
  unfold classpath_tokens. cbn [app Xml.elements].
  change (String.eqb "classpath" "classpathentry") with false. cbv iota.
  rewrite elements_body. cbn [Xml.elements String.eqb]. rewrite app_nil_r.
  change (String.eqb "classpathentry" "classpathentry") with true. cbv iota.
  apply read_all_map. now intros [k p].
Qed.

Lemma read_factorypath_xml (es : list FactorypathEntry.t) :
  forallb factorypath_safe es = true ->
  rmap read_factorypath (factorypath_xml es) = Ok (Some es).
Proof.
  intros H. rewrite factorypath_xml_eq. cbn [rmap rbind]. f_equal.
  unfold read_factorypath. rewrite (lex_factorypath_document es H).
  unfold factorypath_tokens. cbn [app Xml.elements].
  change (String.eqb "factorypath" "factorypathentry") with false. cbv iota.
  rewrite elements_body. cbn [Xml.elements String.eqb]. rewrite app_nil_r.
  change (String.eqb "factorypathentry" "factorypathentry") with true.
  cbv iota.
  apply read_all_map. now intros [k i].
Qed.

(** ** Further properties of the build-tool query *)

(** X1: whatever the info command prints, [bazel_info] leaves the file
    system alone and returns the first line of the output without the
    white space around it: the value holds no line feed and stripping it
    again changes nothing.  It raises in two cases only: [OSError] when the
    command cannot be started and [IndexError] when it prints nothing; the
    exit status plays no part. *)
Theorem bazel_info_outcome key env fs r fs' :
  bazel_info key env fs = (r, fs') ->
  fs' = fs
  /\ match r with
     | Ok v =>
         Py.strip v = v
         /\ Text.single_line v = true
         /\ exists pre post eol rest status,
              spawn env ["bazel"; "info"; key]
              = Some (pre +:+ v +:+ post +:+ eol +:+ rest, status)
              /\ all_space pre = true /\ Text.single_line pre = true
              /\ all_space post = true /\ Text.single_line post = true
              /\ (eol = nl \/ eol = EmptyString /\ rest = EmptyString)
              /\ pre +:+ v +:+ post +:+ eol +:+ rest <> EmptyString
     | Raise e =>
         (e = OSError /\ spawn env ["bazel"; "info"; key] = None)
         \/ (e = IndexError
             /\ exists status,
                  spawn env ["bazel"; "info"; key]
                  = Some (EmptyString, status))
     end.
Proof.
  unfold bazel_info, bind, Os.popen_stdout.
  destruct (spawn env ["bazel"; "info"; key]) as [[out status]|];
    [|intros [= <- <-]; split; [reflexivity | now left]].
  destruct out as [|c out].
  - intros [= <- <-]. split; [reflexivity |]. right. split; [reflexivity |].
    now exists status.
  - rewrite iter_readline_nonempty.
    generalize (readline_line (String c out)) (readline_append (String c out)).
    destruct (Py.readline (String c out)) as [l rest].
    cbn [fst snd map index nth_error lift].
    intros (body & Hb & Hl) Ha [= <- <-]. split; [reflexivity |].
    assert (Py.strip l = Py.strip body) as El.
    { destruct Hl as [[= -> _] | [rest' [= -> _]]];
        [reflexivity | apply strip_line_feed]. }
    rewrite El.
    split; [apply strip_idempotent |].
    split; [now apply single_line_strip |].
    destruct (strip_cut body) as (pre & post & E & Hp & Hq).
    assert (Text.single_line pre = true /\ Text.single_line post = true)
      as [Hs Ht].
    { unfold Text.single_line. rewrite E in Hb.
      rewrite !has_char_append in Hb.
      apply orb_false_elim in Hb as [-> Hb].
      apply orb_false_elim in Hb as [_ ->]. now split. }
    remember (Py.strip body) as v eqn:Ev. clear Ev El Hb.
    destruct Hl as [[= -> ->] | [rest' [= -> ->]]]; subst body.
    + exists pre, post, EmptyString, EmptyString, status.
      assert (String c out = pre +:+ v +:+ post +:+ EmptyString) as Eo
          by now rewrite <- Ha, !append_assoc.
      cbn [String.append]. rewrite <- Eo.
      repeat split; try assumption; [now right | discriminate].
    + exists pre, post, nl, rest', status.
      assert (String c out = pre +:+ v +:+ post +:+ nl +:+ rest') as Eo
          by now rewrite <- Ha, !append_assoc.
      rewrite <- Eo. repeat split; try assumption; [now left | discriminate].
Qed.

Lemma bazel_info_outcome_witness :
  bazel_info "workspace" env0 fs0 = (Ok "/ws", fs0)
  /\ Py.strip "/ws" = "/ws"
  /\ Text.single_line "/ws" = true.
Proof.
  assert (bazel_info "workspace" env0 fs0 = (Ok "/ws", fs0)) as H
      by reflexivity.
  split; [exact H |].
  destruct (bazel_info_outcome _ _ _ _ _ H) as (_ & S & L & _). now split.
Defined.

(** ** Further properties of the builds *)

(** X2: [build_dependencies] ends well exactly when each of its three
    commands, in the order of the source, can be started and exits with
    status 0, and otherwise raises what the first command that fails
    raises, the commands before it having succeeded. *)
Theorem build_dependencies_all_or_first env fs :
  (fst (build_dependencies env fs) = Ok tt
   <-> Forall (built env) build_commands)
  /\ (forall e,
        fst (build_dependencies env fs) = Raise e
        <-> exists done args rest,
              build_commands = done ++ args :: rest
              /\ Forall (built env) done
              /\ fst (Os.check_call args env fs) = Raise e).
Proof.
  unfold build_dependencies, build_commands, bind.
  set (c1 := ["bazel"; "build"; "//java/google/registry/...";
              "//javatests/google/registry/..."]).
  set (c2 := ["bazel"; "build"; "//java/google/registry/eclipse:eclipse_deps"]).
  change ["bazel"; "build";
          "//java/google/registry/eclipse"
          +:+ ":annotation_processors_ide_deploy.jar"]
    with ["bazel"; "build";
          "//java/google/registry/eclipse:annotation_processors_ide_deploy.jar"].
  set (c3 := ["bazel"; "build";
              "//java/google/registry/eclipse:annotation_processors_ide_deploy.jar"]).
  pose proof (check_call_ok c1 env fs) as K1.
  pose proof (check_call_ok c2 env fs) as K2.
  pose proof (check_call_ok c3 env fs) as K3.
  destruct (check_call_cases c1 env fs) as [E1 | (e1 & E1 & _)]; rewrite E1.
  2:{ split.
      - split; [discriminate |]. intros F. inversion F as [|? ? B _]; subst.
        apply K1 in B. congruence.
      - intros e. cbn [fst]. split.
        + intros [= <-]. exists [], c1, [c2; c3].
          split; [reflexivity |]. split; [constructor |]. now rewrite E1.
        + intros (done & args & rest & E & F & R).
          destruct done as [|d1 done].
          * injection E as <- _. now rewrite E1 in R.
          * injection E as <- _. inversion F as [|? ? B _]; subst.
            apply K1 in B. congruence. }
  destruct (check_call_cases c2 env fs) as [E2 | (e2 & E2 & _)]; rewrite E2.
  2:{ split.
      - split; [discriminate |]. intros F.
        inversion F as [|? ? _ F2]; subst. inversion F2 as [|? ? B _]; subst.
        apply K2 in B. congruence.
      - intros e. cbn [fst]. split.
        + intros [= <-]. exists [c1], c2, [c3].
          split; [reflexivity |]. split; [|now rewrite E2].
          constructor; [now apply K1 | constructor].
        + intros (done & args & rest & E & F & R).
          destruct done as [|d1 [|d2 done]].
          * injection E as <- _. now rewrite E1 in R.
          * injection E as _ <- _. now rewrite E2 in R.
          * injection E as _ <- _. inversion F as [|? ? _ F2]; subst.
            inversion F2 as [|? ? B _]; subst. apply K2 in B. congruence. }
  destruct (check_call_cases c3 env fs) as [E3 | (e3 & E3 & _)]; rewrite E3.
  - split.
    + split; [|reflexivity]. intros _.
      repeat constructor; [now apply K1 | now apply K2 | now apply K3].
    + intros e. cbn [fst]. split; [discriminate |].
      intros (done & args & rest & E & F & R).
      destruct done as [|d1 [|d2 [|d3 done]]].
      * injection E as <- _. now rewrite E1 in R.
      * injection E as _ <- _. now rewrite E2 in R.
      * injection E as _ _ <- _. now rewrite E3 in R.
      * injection E as _ _ _ E. now destruct done.
  - split.
    + split; [discriminate |]. intros F.
      inversion F as [|? ? _ F2]; subst. inversion F2 as [|? ? _ F3]; subst.
      inversion F3 as [|? ? B _]; subst. apply K3 in B. congruence.
    + intros e. cbn [fst]. split.
      * intros [= <-]. exists [c1; c2], c3, [].
        split; [reflexivity |]. split; [|now rewrite E3].
        repeat constructor; [now apply K1 | now apply K2].
      * intros (done & args & rest & E & F & R).
        destruct done as [|d1 [|d2 [|d3 done]]].
        -- injection E as <- _. now rewrite E1 in R.
        -- injection E as _ <- _. now rewrite E2 in R.
        -- injection E as _ _ <- _. now rewrite E3 in R.
        -- injection E as _ _ _ E. now destruct done.
Qed.

Lemma build_dependencies_all_or_first_witness :
  Forall (built env0) build_commands
  /\ fst (build_dependencies env0 fs0) = Ok tt.
Proof.
  assert (Forall (built env0) build_commands) as H
      by (repeat constructor; now exists EmptyString).
  split; [exact H |].
  destruct (build_dependencies_all_or_first env0 fs0) as (O & _).
  now apply O.
Defined.

(** ** Further properties of the document builders *)

(** X3: [build_classpath] raises what the query for [bazel-genfiles]
    raises and nothing else; when the query answers, it returns the
    classpath document of six entries, in the order of the source, whose
    library entry is the answer followed by the path of the dependency jar.
    When the answer is made of printable ASCII characters other than the
    double quote, [<] and [&], the document is well formed and its entry
    elements carry these kinds and paths. *)
Theorem build_classpath_document env fs :
  (forall e,
      bazel_info "bazel-genfiles" env fs = (Raise e, fs) ->
      build_classpath env fs = (Raise e, fs))
  /\ (forall g,
        bazel_info "bazel-genfiles" env fs = (Ok g, fs) ->
        exists doc,
          build_classpath env fs = (Ok doc, fs)
          /\ classpath_xml (classpath_entries g) = Ok doc
          /\ (all_printable g = true ->
              Xml.safe g = true ->
              Xml.well_formed doc = true
              /\ option_map (Xml.elements "classpathentry") (Xml.lex doc)
                 = Some
                     [ [("kind", "con");
                        ("path", "org.eclipse.jdt.launching.JRE_CONTAINER")];
                       [("kind", "src"); ("path", "java")];
                       [("kind", "src"); ("path", "javatests")];
                       [("kind", "src"); ("path", "bazel-genfiles/java")];
                       [("kind", "lib");
                        ("path",
                         g +:+ "/java/google/registry/eclipse/eclipse_deps.jar")];
                       [("kind", "output"); ("path", "bin")] ])).
Proof.
  split.
  - intros e H. now rewrite build_classpath_eq, H.
  - intros g H. rewrite build_classpath_eq, H.
    eexists. split; [now rewrite classpath_xml_eq |].
    split; [apply classpath_xml_eq |].
    intros _ Hg. unfold Xml.well_formed.
    rewrite lex_classpath_document.
    + split; reflexivity.
    + cbn [forallb classpath_entries]. unfold classpath_safe.
      cbn [ClasspathEntry.kind ClasspathEntry.path].
      rewrite safe_append, Hg. reflexivity.
Qed.

Lemma build_classpath_document_witness :
  bazel_info "bazel-genfiles" env0 fs0 = (Ok "/out/genfiles", fs0)
  /\ all_printable "/out/genfiles" = true
  /\ Xml.safe "/out/genfiles" = true
  /\ exists doc,
       build_classpath env0 fs0 = (Ok doc, fs0)
       /\ Xml.well_formed doc = true.
Proof.
  assert (bazel_info "bazel-genfiles" env0 fs0 = (Ok "/out/genfiles", fs0))
    as H by reflexivity.
  split; [exact H |]. split; [reflexivity |]. split; [reflexivity |].
  destruct (build_classpath_document env0 fs0) as [_ K].
  destruct (K _ H) as (doc & B & _ & W).
  exists doc. split; [exact B |]. now apply W.
Defined.

(** X4: [build_factorypath] raises what the query for [bazel-bin] raises
    and nothing else; when the query answers, it returns the factorypath
    document of the plugin entry and of the jar of the annotation
    processors, whose path is the answer, a separator unless the answer is
    empty or ends with one, and the path of the jar.  When the answer is
    made of printable ASCII characters other than the double quote, [<]
    and [&], the document is well formed and its two entry elements carry
    these kinds and ids and the two fixed attributes. *)
Theorem build_factorypath_document env fs :
  (forall e,
      bazel_info "bazel-bin" env fs = (Raise e, fs) ->
      build_factorypath env fs = (Raise e, fs))
  /\ (forall b,
        bazel_info "bazel-bin" env fs = (Ok b, fs) ->
        exists doc jar,
          build_factorypath env fs = (Ok doc, fs)
          /\ jar = (if String.eqb b EmptyString || Py.endswith_slash b
                    then b else b +:+ "/")
                   +:+ "java/google/registry/eclipse/"
                   +:+ "annotation_processors_ide_deploy.jar"
          /\ factorypath_xml
               [ FactorypathEntry.Build
                   "PLUGIN" "org.eclipse.jst.ws.annotations.core";
                 FactorypathEntry.Build "EXTJAR" jar ]
             = Ok doc
          /\ (all_printable b = true ->
              Xml.safe b = true ->
              Xml.well_formed doc = true
              /\ option_map (Xml.elements "factorypathentry") (Xml.lex doc)
                 = Some
                     [ [("kind", "PLUGIN");
                        ("id", "org.eclipse.jst.ws.annotations.core");
                        ("enabled", "true"); ("runInBatchMode", "false")];
                       [("kind", "EXTJAR"); ("id", jar);
                        ("enabled", "true"); ("runInBatchMode", "false")] ])).
Proof.
  split.
  - intros e H. now rewrite build_factorypath_eq, H.
  - intros b H. rewrite build_factorypath_eq, H.
    eexists. eexists. split; [now rewrite factorypath_xml_eq |].
    split; [reflexivity |].
    split; [apply factorypath_xml_eq |].
    intros _ Hb. unfold Xml.well_formed.
    change ((if String.eqb b EmptyString || Py.endswith_slash b
             then b else b +:+ "/")
            +:+ "java/google/registry/eclipse/"
            +:+ "annotation_processors_ide_deploy.jar")
      with (dir_prefix b
            +:+ "java/google/registry/eclipse/annotation_processors_ide_deploy.jar").
    rewrite (lex_factorypath_document (factorypath_entries b)).
    + split; reflexivity.
    + cbn [forallb factorypath_entries]. unfold factorypath_safe.
      cbn [FactorypathEntry.kind FactorypathEntry.entry_id].
      rewrite safe_append, (safe_dir_prefix _ Hb). reflexivity.
Qed.

Lemma build_factorypath_document_witness :
  bazel_info "bazel-bin" env0 fs0 = (Ok "/out/bin", fs0)
  /\ all_printable "/out/bin" = true
  /\ Xml.safe "/out/bin" = true
  /\ exists doc,
       build_factorypath env0 fs0 = (Ok doc, fs0)
       /\ Xml.well_formed doc = true.
Proof.
  assert (bazel_info "bazel-bin" env0 fs0 = (Ok "/out/bin", fs0))
    as H by reflexivity.
  split; [exact H |]. split; [reflexivity |]. split; [reflexivity |].
  destruct (build_factorypath_document env0 fs0) as [_ K].
  destruct (K _ H) as (doc & jar & B & _ & _ & W).
  exists doc. split; [exact B |]. now apply W.
Defined.

(** X5: for a project name made of printable ASCII characters that holds
    no [<], no [&] and nowhere the three characters that end a CDATA
    section, [build_project] returns a well-formed document: it lexes to
    the tokens of the template with the name as the text of the first
    [name] element (no text at all for the empty name). *)
Theorem build_project_well_formed (name : string) :
  all_printable name = true ->
  text_safe name = true ->
  Text.contains "]]>" name = false ->
  exists doc,
    build_project name = Ok doc
    /\ Xml.lex doc = Some (project_tokens name)
    /\ Xml.well_formed doc = true.
Proof.
  intros _ Hn _. eexists. split; [apply build_project_eq |].
  assert (Xml.lex (project_head +:+ name +:+ project_tail)
          = Some (project_tokens name)) as E.
  { unfold Xml.lex, project_head, xml_header, dq. simpl. unfold Xml.snoc. simpl.
    rewrite (lex_text name Hn). destruct name; reflexivity. }
  split; [exact E |].
  unfold Xml.well_formed. rewrite E. destruct name; reflexivity.
Qed.

Lemma build_project_well_formed_witness :
  all_printable "nomulus" = true
  /\ text_safe "nomulus" = true
  /\ Text.contains "]]>" "nomulus" = false
  /\ exists doc,
       build_project "nomulus" = Ok doc /\ Xml.well_formed doc = true.
Proof.
  split; [reflexivity |]. split; [reflexivity |]. split; [reflexivity |].
  destruct (build_project_well_formed "nomulus" eq_refl eq_refl eq_refl)
    as (doc & B & _ & W).
  exists doc. split; [exact B | exact W].
Defined.

(** X6: read back line by line, a document of entries whose values hold
    no line feed is the lines of its envelope around one line per entry, in
    order, each entry after two spaces; without entries an empty line
    stands between the lines of the envelope.  The last line has no line
    feed. *)
Theorem documents_line_by_line
        (ces : list ClasspathEntry.t) (fes : list FactorypathEntry.t) :
  forallb classpath_single_line ces = true ->
  forallb factorypath_single_line fes = true ->
  rmap Py.iter_readline (classpath_xml ces)
  = Ok ([ xml_header +:+ nl; "<classpath>" +:+ nl ]
        ++ match ces with
           | [] => [nl]
           | _ :: _ =>
               map (fun e =>
                      "  " +:+ classpath_element (ClasspathEntry.kind e)
                                                 (ClasspathEntry.path e)
                      +:+ nl)
                   ces
           end
        ++ [ "</classpath>" ])
  /\ rmap Py.iter_readline (factorypath_xml fes)
     = Ok ([ "<factorypath>" +:+ nl ]
           ++ match fes with
              | [] => [nl]
              | _ :: _ =>
                  map (fun e =>
                         "  " +:+ factorypath_element
                                    (FactorypathEntry.kind e)
                                    (FactorypathEntry.entry_id e)
                         +:+ nl)
                      fes
              end
           ++ [ "</factorypath>" ]).
Proof.
  intros Hc Hf. split.
  - rewrite classpath_xml_eq. cbn [rmap rbind]. f_equal.
    rewrite (iter_readline_line xml_header) by reflexivity.
    rewrite (iter_readline_line "<classpath>") by reflexivity.
    cbn [app]. do 2 f_equal.
    destruct ces as [|e es]; [reflexivity |].
    rewrite iter_readline_join.
    + rewrite map_map. reflexivity.
    + apply List.Forall_forall. intros l Hl.
      apply in_map_iff in Hl as (x & <- & Hx).
      apply single_line_classpath_line.
      rewrite forallb_forall in Hc. now apply Hc.
    + discriminate.
  - rewrite factorypath_xml_eq. cbn [rmap rbind]. f_equal.
    rewrite (iter_readline_line "<factorypath>") by reflexivity.
    cbn [app]. f_equal.
    destruct fes as [|e es]; [reflexivity |].
    rewrite iter_readline_join.
    + rewrite map_map. reflexivity.
    + apply List.Forall_forall. intros l Hl.
      apply in_map_iff in Hl as (x & <- & Hx).
      apply single_line_factorypath_line.
      rewrite forallb_forall in Hf. now apply Hf.
    + discriminate.
Qed.

Lemma documents_line_by_line_witness :
  forallb classpath_single_line sample_classpath = true
  /\ forallb factorypath_single_line sample_factorypath = true
  /\ rmap (fun doc => length (Py.iter_readline doc))
          (classpath_xml sample_classpath)
     = Ok 6
  /\ rmap (fun doc => length (Py.iter_readline doc))
          (factorypath_xml sample_factorypath)
     = Ok 3.
Proof.
  split; [reflexivity |]. split; [reflexivity |].
  destruct (documents_line_by_line sample_classpath sample_factorypath
              eq_refl eq_refl) as [C F].
  split.
  - destruct (classpath_xml sample_classpath) as [doc|e]; [|discriminate].
    cbn [rmap rbind] in *. injection C as ->. reflexivity.
  - destruct (factorypath_xml sample_factorypath) as [doc|e]; [|discriminate].
    cbn [rmap rbind] in *. injection F as ->. reflexivity.
Defined.

(** X7: nothing is lost in a document of entries whose values hold no
    double quote, [<] or [&]: reading the entry elements back, each with
    its kind and its path or its id, gives the very list of entries, in
    order; so two such lists with the same document are the same list. *)
Theorem documents_read_back
        (ces ces' : list ClasspathEntry.t)
        (fes fes' : list FactorypathEntry.t) :
  forallb classpath_safe ces = true ->
  forallb factorypath_safe fes = true ->
  rmap read_classpath (classpath_xml ces) = Ok (Some ces)
  /\ rmap read_factorypath (factorypath_xml fes) = Ok (Some fes)
  /\ (forallb classpath_safe ces' = true ->
      classpath_xml ces' = classpath_xml ces -> ces' = ces)
  /\ (forallb factorypath_safe fes' = true ->
      factorypath_xml fes' = factorypath_xml fes -> fes' = fes).
Proof.
  intros Hc Hf.
  split; [now apply read_classpath_xml |].
  split; [now apply read_factorypath_xml |].
  split.
  - intros Hc' E. pose proof (read_classpath_xml ces' Hc') as R.
    rewrite E, (read_classpath_xml ces Hc) in R. congruence.
  - intros Hf' E. pose proof (read_factorypath_xml fes' Hf') as R.
    rewrite E, (read_factorypath_xml fes Hf) in R. congruence.
Qed.

Lemma documents_read_back_witness :
  forallb classpath_safe sample_classpath = true
  /\ forallb factorypath_safe sample_factorypath = true
  /\ rmap read_classpath (classpath_xml sample_classpath)
     = Ok (Some sample_classpath)
  /\ rmap read_factorypath (factorypath_xml sample_factorypath)
     = Ok (Some sample_factorypath).
Proof.
  split; [reflexivity |]. split; [reflexivity |].
  destruct (documents_read_back sample_classpath [] sample_factorypath []
              eq_refl eq_refl) as (C & F & _).
  now split.
Defined.

(** ** Further properties of the orchestrator *)







(** X12: after a run of [main] that ended well the three builds have
    succeeded, the build tool has answered the three queries, and the five
    files hold the classpath document, the project document of the name on
    the command line, the factorypath document and the two fixed
    preference texts, whatever they held before; something called
    [.settings] exists in the current directory. *)
Theorem main_final_files env fs fs1 :
  main env fs = (Ok tt, fs1) ->
  Forall (built env) build_commands
  /\ exists ws g b cp pj fp,
       fst (bazel_info "workspace" env fs) = Ok ws
       /\ fst (bazel_info "bazel-genfiles" env fs) = Ok g
       /\ fst (bazel_info "bazel-bin" env fs) = Ok b
       /\ classpath_xml (classpath_entries g) = Ok cp
       /\ build_project match argv env with
                        | _ :: name :: _ => name
                        | _ => "domain-registry"
                        end
          = Ok pj
       /\ factorypath_xml (factorypath_entries b) = Ok fp
       /\ files fs1 !! Os.resolve env (Py.path_join ws [".classpath"])
          = Some cp
       /\ files fs1 !! Os.resolve env (Py.path_join ws [".project"])
          = Some pj
       /\ files fs1 !! Os.resolve env (Py.path_join ws [".factorypath"])
          = Some fp
       /\ files fs1
          !! Os.resolve env
               (Py.path_join ws [".settings"; "org.eclipse.jdt.core.prefs"])
          = Some ("eclipse.preferences.version=1" +:+ nl
                  +:+ "org.eclipse.jdt.core.compiler.processAnnotations=enabled")
       /\ files fs1
          !! Os.resolve env
               (Py.path_join ws
                  [".settings"; "org.eclipse.jdt.apt.core.prefs"])
          = Some ("eclipse.preferences.version=1" +:+ nl
                  +:+ "org.eclipse.jdt.apt.aptEnabled=true" +:+ nl
                  +:+ "org.eclipse.jdt.apt.genSrcDir=autogenerated" +:+ nl
                  +:+ "org.eclipse.jdt.apt.reconcileEnabled=true")
       /\ Os.is_dir fs1 (Os.resolve env ".settings")
          || Os.is_file fs1 (Os.resolve env ".settings") = true.
Proof.
  intros H. apply main_run in H.
  assert (Forall (built env) build_commands) as Hb.
  { destruct H as [? ? ? ? ? ? ? ? ? Hb _ _ _ _ _ _ _ _ _ _].
    apply (build_dependencies_ok env fs), Hb. }
  split; [exact Hb |].
  destruct (run_files _ _ _ H) as (ws & cp & pj & fp & Hw & Hc & Hp & Hf & F & D).
  specialize (Hc fs). rewrite build_classpath_eq in Hc.
  destruct (bazel_info "bazel-genfiles" env fs) as [[g|e] s] eqn:Eg;
    [|discriminate].
  specialize (Hf fs). rewrite build_factorypath_eq in Hf.
  destruct (bazel_info "bazel-bin" env fs) as [[b|e] s'] eqn:Ebin;
    [|discriminate].
  rewrite project_name_of_argv in Hp. cbn [rbind] in Hp.
  destruct (final_files_lookup env ws cp pj fp (files fs))
    as (L1 & L2 & L3 & L4 & L5).
  exists ws, g, b, cp, pj, fp.
  split; [now rewrite Hw |]. split; [reflexivity |]. split; [reflexivity |].
  split; [congruence |]. split; [exact Hp |]. split; [congruence |].
  rewrite F.
  split; [exact L1 |]. split; [exact L2 |]. split; [exact L3 |].
  split; [exact L4 |]. split; [exact L5 |].
  fold (settings_dir env). unfold Os.is_dir at 1. rewrite D.
  unfold final_dirs.
  destruct (Os.is_dir fs (settings_dir env) || Os.is_file fs (settings_dir env))
    eqn:E.
  - apply orb_true_iff in E as [E|E].
    + unfold Os.is_dir in E. now rewrite E.
    + apply orb_true_iff. right. unfold Os.is_file in *.
      apply bool_decide_eq_true. apply bool_decide_eq_true in E.
      destruct (settings_dir_not_written env ws) as (S1 & S2 & S3).
      destruct (settings_dir_not_prefs env ws) as (S4 & S5).
      rewrite F. unfold final_files.
      now rewrite !lookup_insert_ne by congruence.
  - apply orb_true_iff. left. apply bool_decide_eq_true.
    apply elem_of_union_l, elem_of_singleton. reflexivity.
Qed.

Lemma main_final_files_witness :
  main env_named fs0 = (Ok tt, after env_named fs0)
  /\ Forall (built env_named) build_commands
  /\ exists pj,
       build_project "nomulus" = Ok pj
       /\ files (after env_named fs0) !! "/ws/.project" = Some pj.
Proof.
  assert (main env_named fs0 = (Ok tt, after env_named fs0)) as H
      by (vm_compute; reflexivity).
  split; [exact H |].
  destruct (main_final_files _ _ _ H)
    as (B & ws & g & b & cp & pj & fp & Hw & _ & _ & _ & Hp & _ & _ & L & _).
  split; [exact B |].
  vm_compute in Hw. injection Hw as <-.
  exists pj. split; [exact Hp | exact L].
Defined.

(** X15: of its command line [main] reads the first argument only: two
    command lines with the same first argument, or both without one, give
    the same run, whatever the program is called and whatever follows. *)
Theorem main_reads_first_argument env env' fs :
  cwd env' = cwd env ->
  (forall args, spawn env' args = spawn env args) ->
  nth_error (argv env') 1 = nth_error (argv env) 1 ->
  main env' fs = main env fs.
Proof.
  intros Hcwd Hsp Harg.
  assert (forall path content s,
             Os.write_file path content env' s
             = Os.write_file path content env s) as Hwrite.
  { intros path content s. unfold Os.write_file.
    now rewrite (resolve_env env env' Hcwd). }
  unfold main.
  apply bind_env; [now apply build_dependencies_env | intros _ s0].
  apply bind_env; [now apply bazel_info_env | intros ws s1].
  apply bind_env; [now apply build_classpath_env | intros cp s2].
  apply bind_env; [apply Hwrite | intros _ s3].
  rewrite !bind_sys_argv.
  apply bind_env.
  { rewrite !project_name_step, !project_name_of_nth. now rewrite Harg. }
  intros name s4.
  apply bind_env; [reflexivity | intros pj s5].
  apply bind_env; [apply Hwrite | intros _ s6].
  apply bind_env; [now apply build_factorypath_env | intros fp s7].
  apply bind_env; [apply Hwrite | intros _ s8].
  apply bind_env.
  { unfold Os.path_exists. now rewrite (resolve_env env env' Hcwd). }
  intros found s9.
  apply bind_env.
  { destruct (negb found); [|reflexivity].
    change (Os.makedirs ".settings" env' s9)
      with (Os.mkdir ".settings" env' s9).
    change (Os.makedirs ".settings" env s9) with (Os.mkdir ".settings" env s9).
    unfold Os.mkdir. now rewrite (resolve_env env env' Hcwd). }
  intros _ s10.
  apply bind_env; [apply Hwrite | intros _ s11]. apply Hwrite.
Qed.

Lemma main_reads_first_argument_witness :
  cwd env_more = cwd env_named
  /\ (forall args, spawn env_more args = spawn env_named args)
  /\ nth_error (argv env_more) 1 = nth_error (argv env_named) 1
  /\ argv env_more <> argv env_named
  /\ main env_more fs0 = main env_named fs0.
Proof.
  split; [reflexivity |]. split; [reflexivity |]. split; [reflexivity |].
  split; [discriminate |].
  apply (main_reads_first_argument env_named env_more fs0); reflexivity.
Defined.
